(** * Inventory system: a shallow embedding of [inventory_system.py]

    The module keeps one dictionary from item names to quantities and
    offers [add_item], [remove_item], [get_qty], [load_data], [save_data],
    [print_data] and [check_low_items] on it.  Every function receives the
    dictionary as its first argument [inventory] and mutates that object in
    place, so the contents of the object live in the state of a small
    state-and-exception monad, next to the console, the disk and the clock.

    Python values are dynamically typed.  The value universe below holds the
    values a JSON document can produce, floating-point numbers excepted:
    [None], booleans, integers of arbitrary size, strings, lists and
    dictionaries keyed by strings.  A string is a sequence of characters
    with code points below 256. *)

From Stdlib Require Import ZArith String Ascii List Lia Bool.
From Stdlib Require Import Decimal DecimalString DecimalFacts DecimalPos DecimalZ.
From stdpp Require Import base option list gmap strings.

Local Open Scope string_scope.
Local Open Scope list_scope.
Local Open Scope Z_scope.

(** ** Values *)

#[warnings="-register-all"]
Inductive pyval : Type :=
| PyNone
| PyBool (b : bool)
| PyInt (n : Z)
| PyStr (s : string)
| PyList (l : list pyval)
| PyDict (d : list (string * pyval)).

(** A dictionary keeps its entries in insertion order; its keys are
    pairwise distinct. *)
Abbreviation dict := (list (string * pyval)).

Inductive pytype : Type :=
| NoneType | bool_t | int_t | str_t | list_t | dict_t.

(** [type(v)] *)
Definition type_of (v : pyval) : pytype :=
  match v with
  | PyNone => NoneType
  | PyBool _ => bool_t
  | PyInt _ => int_t
  | PyStr _ => str_t
  | PyList _ => list_t
  | PyDict _ => dict_t
  end.

(** [isinstance(v, t)]: [bool] is a subclass of [int]. *)
Definition isinstance (v : pyval) (t : pytype) : bool :=
  match type_of v, t with
  | NoneType, NoneType => true
  | bool_t, bool_t => true
  | bool_t, int_t => true
  | int_t, int_t => true
  | str_t, str_t => true
  | list_t, list_t => true
  | dict_t, dict_t => true
  | _, _ => false
  end.

(** The integer a number stands for in arithmetic ([True] is 1). *)
Definition as_int (v : pyval) : option Z :=
  match v with
  | PyInt n => Some n
  | PyBool b => Some (Z.b2z b)
  | _ => None
  end.

(** ** Exceptions *)

Inductive exn : Type :=
| TypeError
| ValueError
| KeyError
| OSError
| FileNotFoundError
| PermissionError
| JSONDecodeError
| NotModelled.  (* no exception of Python: the run left the value universe *)

(** [issubclass(e, c)] on the exception classes above; [IOError] is an
    alias of [OSError]. *)
Definition issubclass (e c : exn) : bool :=
  match e, c with
  | TypeError, TypeError => true
  | ValueError, ValueError => true
  | KeyError, KeyError => true
  | OSError, OSError => true
  | FileNotFoundError, FileNotFoundError => true
  | FileNotFoundError, OSError => true
  | PermissionError, PermissionError => true
  | PermissionError, OSError => true
  | JSONDecodeError, JSONDecodeError => true
  | JSONDecodeError, ValueError => true
  | _, _ => false
  end.

Inductive result (A : Type) : Type :=
| Ok (a : A)
| Raise (e : exn).
Arguments Ok {A} a.
Arguments Raise {A} e.

(** ** Operators *)

(** [a + b] *)
Definition py_add (a b : pyval) : result pyval :=
  match as_int a, as_int b with
  | Some x, Some y => Ok (PyInt (x + y))
  | _, _ =>
    match a, b with
    | PyStr s, PyStr t => Ok (PyStr (String.append s t))
    | PyList l, PyList m => Ok (PyList (l ++ m))
    | _, _ => Raise TypeError
    end
  end.

(** [a - b] *)
Definition py_sub (a b : pyval) : result pyval :=
  match as_int a, as_int b with
  | Some x, Some y => Ok (PyInt (x - y))
  | _, _ => Raise TypeError
  end.

(** [a <= n] for an integer [n] *)
Definition py_le_int (a : pyval) (n : Z) : result bool :=
  match as_int a with
  | Some x => Ok (x <=? n)
  | None => Raise TypeError
  end.

(** [a < n] for an integer [n] *)
Definition py_lt_int (a : pyval) (n : Z) : result bool :=
  match as_int a with
  | Some x => Ok (x <? n)
  | None => Raise TypeError
  end.

(** ** Dictionaries *)

Fixpoint dict_lookup (d : dict) (k : string) : option pyval :=
  match d with
  | [] => None
  | (k', v) :: r => if String.eqb k k' then Some v else dict_lookup r k
  end.

(** [d[k] = v]: an existing key keeps its place, a new key goes last. *)
Fixpoint dict_set (d : dict) (k : string) (v : pyval) : dict :=
  match d with
  | [] => [(k, v)]
  | (k', v') :: r =>
    if String.eqb k k' then (k', v) :: r else (k', v') :: dict_set r k v
  end.

(** [del d[k]] *)
Fixpoint dict_del (d : dict) (k : string) : dict :=
  match d with
  | [] => []
  | (k', v') :: r =>
    if String.eqb k k' then r else (k', v') :: dict_del r k
  end.

Definition dict_keys (d : dict) : list string := map fst d.

Definition dict_wf (d : dict) : Prop := NoDup (dict_keys d).

(** ** Console *)

Definition timestamp := nat.

(** One constructor per line the module prints, with the values its
    f-string interpolates. *)
Inductive message : Type :=
| Msg_invalid_types (item_type qty_type : pytype)
| Msg_added (now : timestamp) (qty : pyval) (item : string)
| Msg_not_in_stock (item : string)
| Msg_removed_all (item : string)
| Msg_removed (qty : pyval) (item : string) (total : pyval)
| Msg_invalid_quantity (qty : pyval) (item : string)
| Msg_not_a_dictionary
| Msg_file_not_found (filename : string)
| Msg_decode_error (filename : string)
| Msg_saved (filename : string)
| Msg_save_error (filename : string) (error : exn)
| Msg_report_header
| Msg_report_empty
| Msg_report_line (item : string) (qty : pyval)
| Msg_report_footer
| Msg_apple_stock (qty : pyval)
| Msg_low_items (items : list string)
| Msg_finished.

(** ** State and monad *)

Record state : Type := mkState {
  inventory : dict;               (* contents of the object [inventory] *)
  stdout : list message;          (* lines printed so far, oldest first *)
  disk : gmap string string;      (* files by name *)
  denied : gset string;           (* names the process may not open *)
  clock : nat -> timestamp;       (* successive readings of the clock *)
  ticks : nat                     (* readings taken so far *)
}.

Definition M (A : Type) : Type := state -> result A * state.

Definition ret {A} (a : A) : M A := fun s => (Ok a, s).

Definition bind {A B} (m : M A) (k : A -> M B) : M B :=
  fun s =>
    match m s with
    | (Ok a, s') => k a s'
    | (Raise e, s') => (Raise e, s')
    end.

Definition raise {A} (e : exn) : M A := fun s => (Raise e, s).

Definition lift {A} (r : result A) : M A := fun s => (r, s).

Declare Scope py_scope.
Delimit Scope py_scope with py.
Notation "x <- m ;; k" := (bind m (fun x => k))
  (at level 100, m at next level, right associativity) : py_scope.
Notation "m ;;; k" := (bind m (fun _ => k))
  (at level 100, right associativity) : py_scope.
Local Open Scope py_scope.

(** [try: body except classes_1: handler_1 except classes_2: handler_2 ...]:
    the first clause that lists a superclass of the exception handles it. *)
Fixpoint find_clause {A} (e : exn) (clauses : list (list exn * (exn -> M A)))
  : option (exn -> M A) :=
  match clauses with
  | [] => None
  | (classes, handler) :: rest =>
    if existsb (issubclass e) classes then Some handler else find_clause e rest
  end.

Definition try_except {A} (body : M A) (clauses : list (list exn * (exn -> M A))) : M A :=
  fun s =>
    match body s with
    | (Raise e, s') =>
      match find_clause e clauses with
      | Some handler => handler e s'
      | None => (Raise e, s')
      end
    | r => r
    end.

Definition get_inventory : M dict := fun s => (Ok (inventory s), s).

Definition put_inventory (d : dict) : M unit :=
  fun s => (Ok tt, mkState d (stdout s) (disk s) (denied s) (clock s) (ticks s)).

Definition print (m : message) : M unit :=
  fun s => (Ok tt, mkState (inventory s) (stdout s ++ [m]) (disk s) (denied s) (clock s) (ticks s)).

(** [datetime.now()] *)
Definition datetime_now : M timestamp :=
  fun s => (Ok (clock s (ticks s)),
            mkState (inventory s) (stdout s) (disk s) (denied s) (clock s) (S (ticks s))).

(** [item in inventory] *)
Definition contains (item : string) : M bool :=
  d <- get_inventory ;;
  ret match dict_lookup d item with Some _ => true | None => false end.

(** [inventory.get(item, default)] *)
Definition dict_get (item : string) (default : pyval) : M pyval :=
  d <- get_inventory ;;
  ret match dict_lookup d item with Some v => v | None => default end.

(** [inventory[item]] *)
Definition getitem (item : string) : M pyval :=
  d <- get_inventory ;;
  match dict_lookup d item with
  | Some v => ret v
  | None => raise KeyError
  end.

(** [inventory[item] = v] *)
Definition setitem (item : string) (v : pyval) : M unit :=
  d <- get_inventory ;;
  put_inventory (dict_set d item v).

(** [del inventory[item]] *)
Definition delitem (item : string) : M unit :=
  d <- get_inventory ;;
  match dict_lookup d item with
  | Some _ => put_inventory (dict_del d item)
  | None => raise KeyError
  end.

(** [[body(x) for x in l if cond(x)]]: [body] answers [None] for an element
    the condition drops. *)
Fixpoint comprehension {A B} (body : A -> M (option B)) (l : list A) : M (list B) :=
  match l with
  | [] => ret []
  | x :: rest =>
    y <- body x ;;
    ys <- comprehension body rest ;;
    ret match y with Some b => b :: ys | None => ys end
  end.

(** [for x in l: body(x)] *)
Fixpoint for_each {A} (body : A -> M unit) (l : list A) : M unit :=
  match l with
  | [] => ret tt
  | x :: rest => body x ;;; for_each body rest
  end.

(** ** The module *)

(** [add_item(inventory, item, qty)] *)
Definition add_item (item qty : pyval) : M unit :=
  if negb (isinstance item str_t) || negb (isinstance qty int_t) then
    print (Msg_invalid_types (type_of item) (type_of qty))
  else
    match item with
    | PyStr name =>
      v <- dict_get name (PyInt 0) ;;
      r <- lift (py_add v qty) ;;
      setitem name r ;;;
      now <- datetime_now ;;
      print (Msg_added now qty name)
    | _ => ret tt (* excluded by the test above *)
    end.

(** [remove_item(inventory, item, qty)] *)
Definition remove_item (item : string) (qty : pyval) : M unit :=
  present <- contains item ;;
  if negb present then
    print (Msg_not_in_stock item)
  else
    try_except
      (v <- getitem item ;;
       r <- lift (py_sub v qty) ;;
       setitem item r ;;;
       v' <- getitem item ;;
       nonpositive <- lift (py_le_int v' 0) ;;
       if nonpositive then
         delitem item ;;;
         print (Msg_removed_all item)
       else
         total <- getitem item ;;
         print (Msg_removed qty item total))
      [([TypeError; ValueError],
        fun _ => print (Msg_invalid_quantity qty item))].

(** [get_qty(inventory, item)] *)
Definition get_qty (item : string) : M pyval :=
  dict_get item (PyInt 0).

(** [print_data(inventory)] *)
Definition print_data : M unit :=
  print Msg_report_header ;;;
  d <- get_inventory ;;
  (match d with
   | [] => print Msg_report_empty
   | _ => for_each (fun '(item, qty) => print (Msg_report_line item qty)) d
   end) ;;;
  print Msg_report_footer.

(** [check_low_items(inventory, threshold)] *)
Definition check_low_items (threshold : Z) : M (list string) :=
  d <- get_inventory ;;
  comprehension
    (fun '(item, qty) =>
       low <- lift (py_lt_int qty threshold) ;;
       ret (if low then Some item else None))
    d.

(** *** Files and JSON *)

(** The [json] module of the standard library, as far as the module uses
    it: [json.dump(obj, file, indent=n)] produces the text written to the
    file, [json.load(file)] decodes the text read from it or raises
    [JSONDecodeError]. *)
Class Json : Type := {
  json_dump : pyval -> nat -> string;
  json_load : string -> result pyval
}.

(** [open(filename, "r", encoding="utf-8")] followed by reading the file *)
Definition open_read (filename : string) : M string :=
  fun s =>
    if bool_decide (filename ∈ denied s) then (Raise PermissionError, s)
    else match disk s !! filename with
         | Some content => (Ok content, s)
         | None => (Raise FileNotFoundError, s)
         end.

Definition put_file (filename content : string) : M unit :=
  fun s => (Ok tt, mkState (inventory s) (stdout s) (<[filename := content]> (disk s))
                           (denied s) (clock s) (ticks s)).

(** [open(filename, "w", encoding="utf-8")]: creates or truncates the file *)
Definition open_write (filename : string) : M unit :=
  fun s =>
    if bool_decide (filename ∈ denied s) then (Raise PermissionError, s)
    else put_file filename EmptyString s.

(** *** A model of [json] on the value universe

    [dumps] writes a value the way [json.dump(obj, file, indent=n)] does,
    with the default [ensure_ascii=True]; [loads] reads a JSON text the way
    [json.load] does.  A number with a fraction or an exponent, [NaN],
    [Infinity] and a [\u] escape above 255 denote values outside the
    universe: [loads] answers [NotModelled] for them. *)
Module json.

Definition dquote : ascii := "034"%char.
Definition backslash : ascii := "092"%char.
Definition newline : ascii := "010"%char.
Definition space : ascii := " "%char.

Definition chars (s : string) : list ascii := list_ascii_of_string s.

(** **** Encoder *)

Definition hex_digit (n : N) : ascii :=
  nth (N.to_nat n) (chars "0123456789abcdef") "0"%char.

Definition escape_char (c : ascii) : list ascii :=
  let n := N_of_ascii c in
  if (n =? 34)%N then [backslash; dquote]
  else if (n =? 92)%N then [backslash; backslash]
  else if (n =? 10)%N then [backslash; "n"%char]
  else if (n =? 13)%N then [backslash; "r"%char]
  else if (n =? 9)%N then [backslash; "t"%char]
  else if (n =? 8)%N then [backslash; "b"%char]
  else if (n =? 12)%N then [backslash; "f"%char]
  else if (n <? 32)%N || (126 <? n)%N then
    [backslash; "u"%char; "0"%char; "0"%char;
     hex_digit (n / 16); hex_digit (n mod 16)]
  else [c].

Fixpoint escape (s : string) : list ascii :=
  match s with
  | EmptyString => []
  | String c rest => escape_char c ++ escape rest
  end.

Definition encode_string (s : string) : list ascii :=
  dquote :: escape s ++ [dquote].

(** [repr] of an integer *)
Definition decimal (z : Z) : list ascii :=
  chars (NilZero.string_of_int (Z.to_int z)).

Definition newline_indent (indent level : nat) : list ascii :=
  newline :: repeat space (indent * level).

Fixpoint join (sep : list ascii) (parts : list (list ascii)) : list ascii :=
  match parts with
  | [] => []
  | [x] => x
  | x :: rest => x ++ sep ++ join sep rest
  end.

Fixpoint encode (indent level : nat) (v : pyval) {struct v} : list ascii :=
  match v with
  | PyNone => chars "null"
  | PyBool true => chars "true"
  | PyBool false => chars "false"
  | PyInt z => decimal z
  | PyStr s => encode_string s
  | PyList [] => chars "[]"
  | PyList l =>
    chars "[" ++ newline_indent indent (S level) ++
    join (chars "," ++ newline_indent indent (S level))
         (map (encode indent (S level)) l) ++
    newline_indent indent level ++ chars "]"
  | PyDict [] => chars "{}"
  | PyDict d =>
    chars "{" ++ newline_indent indent (S level) ++
    join (chars "," ++ newline_indent indent (S level))
         (map (fun '(k, x) =>
                 encode_string k ++ chars ": " ++ encode indent (S level) x) d) ++
    newline_indent indent level ++ chars "}"
  end.

Definition dumps (obj : pyval) (indent : nat) : string :=
  string_of_list_ascii (encode indent 0 obj).

(** **** Decoder *)

Inductive outcome (A : Type) : Type :=
| Parsed (a : A) (rest : list ascii)
| Malformed
| Unsupported.
Arguments Parsed {A} a rest.
Arguments Malformed {A}.
Arguments Unsupported {A}.

Definition is_ws (c : ascii) : bool :=
  Ascii.eqb c space || Ascii.eqb c "009"%char || Ascii.eqb c newline
  || Ascii.eqb c "013"%char.

Fixpoint skip_ws (s : list ascii) : list ascii :=
  match s with
  | c :: rest => if is_ws c then skip_ws rest else s
  | [] => []
  end.

Definition is_digit (c : ascii) : bool :=
  (48 <=? N_of_ascii c)%N && (N_of_ascii c <=? 57)%N.

Definition hex_value (c : ascii) : option N :=
  let n := N_of_ascii c in
  if (48 <=? n)%N && (n <=? 57)%N then Some (n - 48)%N
  else if (97 <=? n)%N && (n <=? 102)%N then Some (n - 87)%N
  else if (65 <=? n)%N && (n <=? 70)%N then Some (n - 55)%N
  else None.

Definition hex4 (a b c d : ascii) : option N :=
  match hex_value a, hex_value b, hex_value c, hex_value d with
  | Some x, Some y, Some z, Some w => Some (((x * 16 + y) * 16 + z) * 16 + w)%N
  | _, _, _, _ => None
  end.

(** The character a one-letter escape stands for. *)
Definition simple_escape (c : ascii) : option ascii :=
  if Ascii.eqb c dquote then Some dquote
  else if Ascii.eqb c backslash then Some backslash
  else if Ascii.eqb c "/"%char then Some "/"%char
  else if Ascii.eqb c "b"%char then Some "008"%char
  else if Ascii.eqb c "f"%char then Some "012"%char
  else if Ascii.eqb c "n"%char then Some newline
  else if Ascii.eqb c "r"%char then Some "013"%char
  else if Ascii.eqb c "t"%char then Some "009"%char
  else None.

Definition prepend (c : ascii) (o : outcome string) : outcome string :=
  match o with
  | Parsed s rest => Parsed (String c s) rest
  | Malformed => Malformed
  | Unsupported => Unsupported
  end.

(** The body of a string, from behind its opening quote to its closing
    quote. *)
Fixpoint scanstring (s : list ascii) : outcome string :=
  match s with
  | [] => Malformed
  | c :: rest =>
    if Ascii.eqb c dquote then Parsed EmptyString rest
    else if Ascii.eqb c backslash then
      match rest with
      | [] => Malformed
      | e :: rest1 =>
        match simple_escape e with
        | Some c' => prepend c' (scanstring rest1)
        | None =>
          if Ascii.eqb e "u"%char then
            match rest1 with
            | h1 :: h2 :: h3 :: h4 :: rest2 =>
              match hex4 h1 h2 h3 h4 with
              | Some n =>
                if (n <? 256)%N then prepend (ascii_of_N n) (scanstring rest2)
                else Unsupported
              | None => Malformed
              end
            | _ => Malformed
            end
          else Malformed
        end
      end
    else if (N_of_ascii c <? 32)%N then Malformed
    else prepend c (scanstring rest)
  end.

Fixpoint span_digits (s : list ascii) : list ascii * list ascii :=
  match s with
  | c :: rest =>
    if is_digit c then let (ds, r) := span_digits rest in (c :: ds, r)
    else ([], s)
  | [] => ([], [])
  end.

Definition starts_with_digit (s : list ascii) : bool :=
  match s with
  | c :: _ => is_digit c
  | [] => false
  end.

(** A fraction or an exponent follows: the number is a float. *)
Definition float_follows (s : list ascii) : bool :=
  match s with
  | c :: rest =>
    if Ascii.eqb c "."%char then starts_with_digit rest
    else if Ascii.eqb c "e"%char || Ascii.eqb c "E"%char then
      match rest with
      | sign :: rest1 =>
        if Ascii.eqb sign "+"%char || Ascii.eqb sign "-"%char
        then starts_with_digit rest1
        else is_digit sign
      | [] => false
      end
    else false
  | [] => false
  end.

Definition digits_value (ds : list ascii) : option Z :=
  option_map Z.of_uint (NilZero.uint_of_string (string_of_list_ascii ds)).

(** The integer part [0|[1-9][0-9]*] of a number. *)
Definition scan_integer (negative : bool) (s : list ascii) : outcome pyval :=
  match s with
  | c :: rest =>
    if Ascii.eqb c "0"%char then
      if float_follows rest then Unsupported else Parsed (PyInt 0) rest
    else if is_digit c then
      let (ds, r) := span_digits s in
      if float_follows r then Unsupported
      else match digits_value ds with
           | Some z => Parsed (PyInt (if negative then - z else z)) r
           | None => Malformed
           end
    else Malformed
  | [] => Malformed
  end.

Fixpoint strip_prefix (prefix s : list ascii) : option (list ascii) :=
  match prefix, s with
  | [], _ => Some s
  | p :: prefix', c :: s' => if Ascii.eqb p c then strip_prefix prefix' s' else None
  | _ :: _, [] => None
  end.

Definition scan_number (s : list ascii) : outcome pyval :=
  match strip_prefix (chars "NaN") s, strip_prefix (chars "Infinity") s,
        strip_prefix (chars "-Infinity") s with
  | None, None, None =>
    match s with
    | c :: rest =>
      if Ascii.eqb c "-"%char then scan_integer true rest else scan_integer false s
    | [] => Malformed
    end
  | _, _, _ => Unsupported
  end.

Definition literal (s : list ascii) : option (pyval * list ascii) :=
  match strip_prefix (chars "null") s with
  | Some rest => Some (PyNone, rest)
  | None =>
    match strip_prefix (chars "true") s with
    | Some rest => Some (PyBool true, rest)
    | None =>
      match strip_prefix (chars "false") s with
      | Some rest => Some (PyBool false, rest)
      | None => None
      end
    end
  end.

(** [scan_once] reads one value; [members] reads the pairs of an object
    from behind the opening quote of a key, [elements] the items of an
    array.  The fuel bounds the number of nested calls; [loads] gives
    the length of the text. *)
Fixpoint scan_once (fuel : nat) (s : list ascii) {struct fuel} : outcome pyval :=
  match fuel with
  | O => Unsupported
  | S fuel' =>
    match s with
    | [] => Malformed
    | c :: rest =>
      if Ascii.eqb c dquote then
        match scanstring rest with
        | Parsed str r => Parsed (PyStr str) r
        | Malformed => Malformed
        | Unsupported => Unsupported
        end
      else if Ascii.eqb c "{"%char then
        match skip_ws rest with
        | c1 :: r1 =>
          if Ascii.eqb c1 "}"%char then Parsed (PyDict []) r1
          else if Ascii.eqb c1 dquote then members fuel' r1 []
          else Malformed
        | [] => Malformed
        end
      else if Ascii.eqb c "["%char then
        match skip_ws rest with
        | c1 :: r1 =>
          if Ascii.eqb c1 "]"%char then Parsed (PyList []) r1
          else elements fuel' (c1 :: r1) []
        | [] => Malformed
        end
      else
        match literal s with
        | Some (v, r) => Parsed v r
        | None => scan_number s
        end
    end
  end
with members (fuel : nat) (s : list ascii) (pairs : dict) {struct fuel}
  : outcome pyval :=
  match fuel with
  | O => Unsupported
  | S fuel' =>
    match scanstring s with
    | Parsed key r =>
      match skip_ws r with
      | c :: r1 =>
        if Ascii.eqb c ":"%char then
          match scan_once fuel' (skip_ws r1) with
          | Parsed v r2 =>
            match skip_ws r2 with
            | c2 :: r3 =>
              if Ascii.eqb c2 "}"%char then Parsed (PyDict (dict_set pairs key v)) r3
              else if Ascii.eqb c2 ","%char then
                match skip_ws r3 with
                | c3 :: r4 =>
                  if Ascii.eqb c3 dquote
                  then members fuel' r4 (dict_set pairs key v)
                  else Malformed
                | [] => Malformed
                end
              else Malformed
            | [] => Malformed
            end
          | Malformed => Malformed
          | Unsupported => Unsupported
          end
        else Malformed
      | [] => Malformed
      end
    | Malformed => Malformed
    | Unsupported => Unsupported
    end
  end
with elements (fuel : nat) (s : list ascii) (items : list pyval) {struct fuel}
  : outcome pyval :=
  match fuel with
  | O => Unsupported
  | S fuel' =>
    match scan_once fuel' s with
    | Parsed v r =>
      match skip_ws r with
      | c :: r1 =>
        if Ascii.eqb c "]"%char then Parsed (PyList (items ++ [v])) r1
        else if Ascii.eqb c ","%char then elements fuel' (skip_ws r1) (items ++ [v])
        else Malformed
      | [] => Malformed
      end
    | Malformed => Malformed
    | Unsupported => Unsupported
    end
  end.

Definition loads (text : string) : result pyval :=
  let s := skip_ws (chars text) in
  match scan_once (S (length s)) s with
  | Parsed v rest =>
    match skip_ws rest with
    | [] => Ok v
    | _ :: _ => Raise JSONDecodeError
    end
  | Malformed => Raise JSONDecodeError
  | Unsupported => Raise NotModelled
  end.

End json.

#[export] Instance py_json : Json :=
  {| json_dump := json.dumps; json_load := json.loads |}.

Section Persistence.
Context {J : Json}.

(** [load_data(filename)] *)
Definition load_data (filename : string) : M dict :=
  try_except
    (content <- open_read filename ;;
     data <- lift (json_load content) ;;
     if negb (isinstance data dict_t) then
       print Msg_not_a_dictionary ;;;
       ret []
     else
       ret match data with PyDict d => d | _ => [] end)
    [([FileNotFoundError],
      fun _ => print (Msg_file_not_found filename) ;;; ret []);
     ([JSONDecodeError],
      fun _ => print (Msg_decode_error filename) ;;; ret [])].

(** [save_data(inventory, filename)] *)
Definition save_data (filename : string) : M unit :=
  try_except
    (open_write filename ;;;
     d <- get_inventory ;;
     put_file filename (json_dump (PyDict d) 4) ;;;
     print (Msg_saved filename))
    [([OSError],
      fun error => print (Msg_save_error filename error))].

(** [main()] *)
Definition main : M unit :=
  stock_data <- load_data "inventory.json" ;;
  put_inventory stock_data ;;;
  add_item (PyStr "apple") (PyInt 10) ;;;
  add_item (PyStr "banana") (PyInt 2) ;;;
  add_item (PyInt 123) (PyStr "ten") ;;;
  remove_item "apple" (PyInt 3) ;;;
  remove_item "orange" (PyInt 1) ;;;
  apple <- get_qty "apple" ;;
  print (Msg_apple_stock apple) ;;;
  low_items <- check_low_items 5 ;;
  print (Msg_low_items low_items) ;;;
  print_data ;;;
  save_data "inventory.json" ;;;
  print Msg_finished.
End Persistence.

(** * Specification

    The notions the properties below are stated with. *)

(** ** Quantities *)

(** Every quantity is an instance of [int]. *)
Definition int_valued (d : dict) : Prop :=
  Forall (fun kv : string * pyval => is_Some (as_int kv.2)) d.

(** Every quantity is an [int] proper. *)
Definition int_only (d : dict) : Prop :=
  Forall (fun kv : string * pyval => exists z, kv.2 = PyInt z) d.

(** The integer the dictionary holds for an item. *)
Definition held (d : dict) (item : string) : option Z :=
  match dict_lookup d item with
  | Some (PyInt z) => Some z
  | _ => None
  end.

Definition absent_or_positive (o : option pyval) : Prop :=
  match o with
  | None => True
  | Some v => exists z, v = PyInt z /\ 0 < z
  end.

(** A quantity that is zero or negative. *)
Definition nonpositive (v : pyval) : bool :=
  match as_int v with
  | Some z => z <=? 0
  | None => false
  end.

Definition has_nonpositive (d : dict) : bool :=
  existsb (fun kv => nonpositive kv.2) d.

(** The quantity of an entry is an integer below the threshold. *)
Definition below (threshold : Z) (kv : string * pyval) : bool :=
  match as_int kv.2 with
  | Some q => q <? threshold
  | None => false
  end.

(** The dictionary [remove_item] leaves behind. *)
Definition remove_entry (d : dict) (item : string) (qty : pyval) : dict :=
  match dict_lookup d item with
  | None => d
  | Some v =>
    match as_int v, as_int qty with
    | Some q, Some n =>
      if q - n <=? 0 then dict_del d item else dict_set d item (PyInt (q - n))
    | _, _ => d
    end
  end.

(** The body of the comprehension in [check_low_items]. *)
Definition low_body (threshold : Z) : string * pyval -> M (option string) :=
  fun '(item, qty) =>
    low <- lift (py_lt_int qty threshold) ;;
    ret (if low then Some item else None).

(** ** Sequences of operations *)

Inductive op : Type :=
| Add (item : string) (qty : Z)
| Remove (item : string) (qty : Z).

Definition run_op (o : op) : M unit :=
  match o with
  | Add item qty => add_item (PyStr item) (PyInt qty)
  | Remove item qty => remove_item item (PyInt qty)
  end.

Definition run_ops (ops : list op) : M unit := for_each run_op ops.

(** The account of one item, following the words of the specification: an
    addition raises the balance (from 0 when there is no entry), a removal
    on an entry lowers it, and a removal that brings it to zero or below
    closes the entry; a removal without an entry does nothing. *)
Definition ledger_step (item : string) (balance : option Z) (o : op) : option Z :=
  match o with
  | Add i q =>
    if String.eqb i item then
      Some (match balance with Some b => b | None => 0 end + q)
    else balance
  | Remove i q =>
    if String.eqb i item then
      match balance with
      | Some b => if b - q <=? 0 then None else Some (b - q)
      | None => None
      end
    else balance
  end.

Definition ledger (ops : list op) (item : string) : option Z :=
  fold_left (ledger_step item) ops None.

Definition expected_qty (ops : list op) (item : string) : Z :=
  match ledger ops item with
  | Some b => b
  | None => 0
  end.

Fixpoint total_added (item : string) (ops : list op) : Z :=
  match ops with
  | [] => 0
  | Add i q :: rest =>
    (if String.eqb i item then q else 0) + total_added item rest
  | Remove _ _ :: rest => total_added item rest
  end.

Fixpoint total_removed (item : string) (ops : list op) : Z :=
  match ops with
  | [] => 0
  | Remove i q :: rest =>
    (if String.eqb i item then q else 0) + total_removed item rest
  | Add _ _ :: rest => total_removed item rest
  end.

(** ** The text of an object *)

(** Neither a digit nor a fraction nor an exponent follows. *)
Definition number_end (r : list ascii) : Prop :=
  json.float_follows r = false /\ json.starts_with_digit r = false.

(** The text of an object from behind the opening quote of its first key,
    followed by [rest]. *)
Fixpoint members_text (indent : nat) (k : string) (x : pyval) (kvs : dict)
    (rest : list ascii) : list ascii :=
  json.escape k ++
  json.dquote :: ":"%char :: json.space :: json.encode indent 1 x ++
  match kvs with
  | [] => json.newline_indent indent 0 ++ "}"%char :: rest
  | (k', x') :: kvs' =>
    ","%char :: json.newline_indent indent 1 ++
    json.dquote :: members_text indent k' x' kvs' rest
  end.

(** [dict(pairs)], on top of the pairs read before. *)
Definition dict_of_pairs (pairs : dict) (kvs : dict) : dict :=
  fold_left (fun acc kv => dict_set acc kv.1 kv.2) kvs pairs.

(** ** Sample data *)

Definition start (d : dict) : state :=
  mkState d [] ∅ ∅ (fun n => n) 0%nat.

Definition stock : dict := [("apple", PyInt 7); ("banana", PyInt 2)].

Definition fruit : dict := [("apple", PyInt 3); ("banana", PyInt 10)].

Definition demo_ops : list op :=
  [Add "apple" 10; Add "banana" 2; Remove "apple" 3; Remove "orange" 1;
   Remove "banana" 2; Add "banana" 5].

(** A disk that holds [content] under the name [filename]. *)
Definition with_file (filename content : string) (s : state) : state :=
  mkState (inventory s) (stdout s) (<[filename := content]> (disk s))
          (denied s) (clock s) (ticks s).

(** A process that may not open [filename]. *)
Definition with_denied (filename : string) (s : state) : state :=
  mkState (inventory s) (stdout s) (disk s) ({[filename]} ∪ denied s)
          (clock s) (ticks s).

(** ** Further notions *)

(** The quantity [add_item] starts from. *)
Definition stored_or_zero (d : dict) (item : string) : pyval :=
  match dict_lookup d item with
  | Some v => v
  | None => PyInt 0
  end.

(** The line [remove_item] prints. *)
Definition remove_message (d : dict) (item : string) (qty : pyval) : message :=
  match dict_lookup d item with
  | None => Msg_not_in_stock item
  | Some v =>
    match as_int v, as_int qty with
    | Some q, Some n =>
      if q - n <=? 0 then Msg_removed_all item
      else Msg_removed qty item (PyInt (q - n))
    | _, _ => Msg_invalid_quantity qty item
    end
  end.

(** The lines [print_data] prints between its header and its footer. *)
Definition report_lines (d : dict) : list message :=
  match d with
  | [] => [Msg_report_empty]
  | _ => map (fun '(item, qty) => Msg_report_line item qty) d
  end.

(** The dictionary an operation leaves behind. *)
Definition apply_op (d : dict) (o : op) : dict :=
  match o with
  | Add i q =>
    dict_set d i (PyInt (match held d i with Some b => b | None => 0 end + q))
  | Remove i q => remove_entry d i (PyInt q)
  end.

(** The operations of [main] that pass the type check, in order. *)
Definition main_ops : list op :=
  [Add "apple" 10; Add "banana" 2; Remove "apple" 3; Remove "orange" 1].

(** Some quantity is no number. *)
Definition has_non_number (d : dict) : Prop :=
  Exists (fun kv : string * pyval => as_int kv.2 = None) d.

(** The item an operation is about. *)
Definition op_item (o : op) : string :=
  match o with
  | Add i _ => i
  | Remove i _ => i
  end.

(** Distinct keys in every dictionary of a value. *)
Fixpoint wf_value (v : pyval) : Prop :=
  match v with
  | PyList l => fold_right (fun x acc => wf_value x /\ acc) True l
  | PyDict d =>
    NoDup (map fst d) /\
    fold_right (fun '(_, x) acc => wf_value x /\ acc) True d
  | _ => True
  end.

(** The number of values in a value, itself included, plus one for every
    item of a list and every pair of a dictionary. *)
Fixpoint value_size (v : pyval) : nat :=
  match v with
  | PyList l => S (fold_right (fun x acc => S (value_size x + acc)) 0%nat l)
  | PyDict d => S (fold_right (fun '(_, x) acc => S (value_size x + acc)) 0%nat d)
  | _ => 1%nat
  end.

Definition items_size (l : list pyval) : nat :=
  fold_right (fun x acc => S (value_size x + acc)) 0%nat l.

Definition pairs_size (d : dict) : nat :=
  fold_right (fun '(_, x) acc => S (value_size x + acc)) 0%nat d.

(** The text of a list from its first item on, followed by [rest]. *)
Fixpoint elements_text (indent level : nat) (x : pyval) (xs : list pyval)
    (rest : list ascii) : list ascii :=
  json.encode indent (S level) x ++
  match xs with
  | [] => json.newline_indent indent level ++ "]"%char :: rest
  | x' :: xs' =>
    ","%char :: json.newline_indent indent (S level) ++
    elements_text indent level x' xs' rest
  end.

(** The text of an object at any depth, from behind the opening quote of
    its first key, followed by [rest]. *)
Fixpoint members_text_at (indent level : nat) (k : string) (x : pyval) (kvs : dict)
    (rest : list ascii) : list ascii :=
  json.escape k ++
  json.dquote :: ":"%char :: json.space :: json.encode indent (S level) x ++
  match kvs with
  | [] => json.newline_indent indent level ++ "}"%char :: rest
  | (k', x') :: kvs' =>
    ","%char :: json.newline_indent indent (S level) ++
    json.dquote :: members_text_at indent level k' x' kvs' rest
  end.

(** * Proofs *)

(** ** Dictionaries: lookup after update *)

Lemma dict_lookup_set_eq (d : dict) k v :
  dict_lookup (dict_set d k v) k = Some v.
Proof.
  induction d as [|[k' v'] r IH]; simpl.
  - now rewrite String.eqb_refl.
  - destruct (String.eqb k k') eqn:E; simpl; rewrite E; auto.
Qed.

Lemma dict_lookup_set_ne (d : dict) k k' v :
  k <> k' -> dict_lookup (dict_set d k v) k' = dict_lookup d k'.
Proof.
  intros Hne. induction d as [|[k0 v0] r IH]; simpl.
  - destruct (String.eqb_spec k' k); congruence.
  - destruct (String.eqb_spec k k0) as [->|]; simpl.
    + destruct (String.eqb_spec k' k0); congruence.
    + now rewrite IH.
Qed.

Lemma dict_lookup_del_ne (d : dict) k k' :
  k <> k' -> dict_lookup (dict_del d k) k' = dict_lookup d k'.
Proof.
  intros Hne. induction d as [|[k0 v0] r IH]; simpl; auto.
  destruct (String.eqb_spec k k0) as [->|]; simpl.
  - destruct (String.eqb_spec k' k0); congruence.
  - now rewrite IH.
Qed.

Lemma dict_lookup_None (d : dict) k :
  dict_lookup d k = None <-> k ∉ dict_keys d.
Proof.
  induction d as [|[k0 v0] r IH]; simpl.
  - split; auto. intros _ H. inversion H.
  - rewrite not_elem_of_cons. destruct (String.eqb_spec k k0) as [->|Hne].
    + split; [discriminate | intros [H _]; congruence].
    + rewrite IH. tauto.
Qed.

Lemma dict_lookup_del_eq (d : dict) k :
  dict_wf d -> dict_lookup (dict_del d k) k = None.
Proof.
  unfold dict_wf. induction d as [|[k0 v0] r IH]; simpl; auto.
  intros Hnd. apply NoDup_cons in Hnd as [Hnotin Hnd].
  destruct (String.eqb_spec k k0) as [->|Hne]; simpl.
  - now apply dict_lookup_None.
  - destruct (String.eqb_spec k k0); [congruence | auto].
Qed.

Lemma dict_keys_set_present (d : dict) k v :
  is_Some (dict_lookup d k) -> dict_keys (dict_set d k v) = dict_keys d.
Proof.
  induction d as [|[k0 v0] r IH]; simpl.
  - intros [? ?]; discriminate.
  - destruct (String.eqb_spec k k0) as [->|Hne]; simpl; auto.
    intros H. now rewrite IH.
Qed.

Lemma dict_set_absent (d : dict) k v :
  dict_lookup d k = None -> dict_set d k v = d ++ [(k, v)].
Proof.
  induction d as [|[k0 v0] r IH]; simpl; auto.
  destruct (String.eqb_spec k k0); [discriminate |].
  intros H. now rewrite IH.
Qed.

Lemma dict_keys_del_sublist (d : dict) k :
  sublist (dict_keys (dict_del d k)) (dict_keys d).
Proof.
  induction d as [|[k0 v0] r IH]; simpl.
  - constructor.
  - destruct (String.eqb k k0); simpl.
    + now apply sublist_cons.
    + now apply sublist_skip.
Qed.

Lemma dict_wf_set (d : dict) k v : dict_wf d -> dict_wf (dict_set d k v).
Proof.
  unfold dict_wf. intros Hwf.
  destruct (dict_lookup d k) eqn:E.
  - rewrite dict_keys_set_present; eauto.
  - rewrite dict_set_absent by assumption. unfold dict_keys.
    rewrite map_app. simpl. apply NoDup_app. split; [assumption|]. split.
    + intros x Hx Hx'. apply list_elem_of_singleton in Hx'. subst x.
      now apply dict_lookup_None in E.
    + apply NoDup_singleton.
Qed.

Lemma dict_wf_del (d : dict) k : dict_wf d -> dict_wf (dict_del d k).
Proof.
  unfold dict_wf. intros Hwf.
  eapply sublist_NoDup; [eassumption | apply dict_keys_del_sublist].
Qed.

(** ** Running the monad *)

Arguments as_int : simpl never.
Arguments py_add : simpl never.
Arguments py_sub : simpl never.
Arguments py_le_int : simpl never.
Arguments py_lt_int : simpl never.

Ltac run :=
  unfold get_qty, dict_get, contains, getitem, setitem, delitem, try_except,
    bind, ret, lift, raise, get_inventory, put_inventory, print, datetime_now;
  simpl.

Lemma print_inventory m s : inventory (print m s).2 = inventory s.
Proof. reflexivity. Qed.

(** ** Removal *)

(** What [remove_item] does to an entry holding an integer when asked to
    remove an integer. *)
Lemma remove_item_int (s : state) (item : string) (v qty : pyval) (q n : Z) :
  dict_lookup (inventory s) item = Some v ->
  as_int v = Some q ->
  as_int qty = Some n ->
  remove_item item qty s =
    if q - n <=? 0 then
      (delitem item ;;; print (Msg_removed_all item))
        (mkState (dict_set (inventory s) item (PyInt (q - n)))
                 (stdout s) (disk s) (denied s) (clock s) (ticks s))
    else
      print (Msg_removed qty item (PyInt (q - n)))
        (mkState (dict_set (inventory s) item (PyInt (q - n)))
                 (stdout s) (disk s) (denied s) (clock s) (ticks s)).
Proof.
  intros Hv Hq Hn. unfold remove_item. run. rewrite Hv. simpl. rewrite Hv. simpl.
  unfold py_sub. rewrite Hq, Hn. simpl.
  rewrite dict_lookup_set_eq. simpl.
  unfold py_le_int, as_int.
  destruct (q - n <=? 0); simpl.
  - now rewrite dict_lookup_set_eq.
  - now rewrite dict_lookup_set_eq.
Qed.

Lemma dict_del_set (d : dict) k v :
  is_Some (dict_lookup d k) -> dict_del (dict_set d k v) k = dict_del d k.
Proof.
  induction d as [|[k0 v0] r IH]; simpl.
  - intros [? ?]; discriminate.
  - destruct (String.eqb_spec k k0) as [->|Hne]; simpl.
    + now rewrite String.eqb_refl.
    + intros H. destruct (String.eqb_spec k k0); [congruence|]. now rewrite IH.
Qed.


Lemma stock_wf : dict_wf stock.
Proof.
  unfold dict_wf, stock. simpl.
  apply NoDup_cons. split.
  - intros H. apply list_elem_of_singleton in H. discriminate.
  - apply NoDup_singleton.
Qed.


Lemma remove_item_absent_run (s : state) (item : string) (qty : pyval) :
  dict_lookup (inventory s) item = None ->
  remove_item item qty s = print (Msg_not_in_stock item) s.
Proof. intros Hnone. unfold remove_item. run. now rewrite Hnone. Qed.

Lemma remove_item_type_error_run (s : state) (item : string) (qty v : pyval) :
  dict_lookup (inventory s) item = Some v ->
  as_int qty = None ->
  remove_item item qty s = print (Msg_invalid_quantity qty item) s.
Proof.
  intros Hv Hqty. unfold remove_item. run. rewrite Hv. simpl. rewrite Hv. simpl.
  unfold py_sub. rewrite Hqty. destruct (as_int v); reflexivity.
Qed.

(** C8. Removing an item the inventory does not hold prints the warning
    and changes nothing in the inventory, whatever [qty] is. *)
Theorem remove_item_absent (s : state) (item : string) (qty : pyval) :
  dict_lookup (inventory s) item = None ->
  remove_item item qty s = print (Msg_not_in_stock item) s /\
  (remove_item item qty s).1 = Ok tt /\
  inventory (remove_item item qty s).2 = inventory s /\
  stdout (remove_item item qty s).2 = stdout s ++ [Msg_not_in_stock item].
Proof.
  intros Hnone. rewrite (remove_item_absent_run s item qty Hnone). repeat split.
Qed.

Lemma remove_item_absent_witness :
  remove_item "orange" (PyInt 1) (start stock) =
    print (Msg_not_in_stock "orange") (start stock) /\
  (remove_item "orange" (PyInt 1) (start stock)).1 = Ok tt /\
  inventory (remove_item "orange" (PyInt 1) (start stock)).2 = inventory (start stock) /\
  stdout (remove_item "orange" (PyInt 1) (start stock)).2 =
    stdout (start stock) ++ [Msg_not_in_stock "orange"].
Proof.
  apply (remove_item_absent (start stock) "orange" (PyInt 1)).
  reflexivity.
Defined.



(** ** Addition *)

(** C7. When [item] is not a string or [qty] is not an integer,
    [add_item] prints the error line and leaves the inventory as it was. *)
Theorem add_item_invalid_types (s : state) (item qty : pyval) :
  isinstance item str_t = false \/ isinstance qty int_t = false ->
  add_item item qty s = print (Msg_invalid_types (type_of item) (type_of qty)) s /\
  (add_item item qty s).1 = Ok tt /\
  inventory (add_item item qty s).2 = inventory s.
Proof.
  intros H.
  assert (E : add_item item qty s =
              print (Msg_invalid_types (type_of item) (type_of qty)) s).
  { unfold add_item. destruct H as [H|H]; rewrite H; simpl; auto.
    now rewrite orb_true_r. }
  rewrite E. repeat split.
Qed.

Lemma add_item_invalid_types_witness :
  add_item (PyInt 123) (PyStr "ten") (start stock) =
    print (Msg_invalid_types int_t str_t) (start stock) /\
  (add_item (PyInt 123) (PyStr "ten") (start stock)).1 = Ok tt /\
  inventory (add_item (PyInt 123) (PyStr "ten") (start stock)).2 = inventory (start stock).
Proof.
  apply (add_item_invalid_types (start stock) (PyInt 123) (PyStr "ten")).
  left. reflexivity.
Defined.

(** What [add_item] does with a string and an integer when the stored
    quantity, if any, is an integer. *)
Lemma add_item_int (s : state) (name : string) (qty : pyval) (q n : Z) :
  as_int qty = Some n ->
  as_int (match dict_lookup (inventory s) name with Some v => v | None => PyInt 0 end)
    = Some q ->
  add_item (PyStr name) qty s =
    (Ok tt,
     mkState (dict_set (inventory s) name (PyInt (q + n)))
             (stdout s ++ [Msg_added (clock s (ticks s)) qty name])
             (disk s) (denied s) (clock s) (S (ticks s))).
Proof.
  intros Hn Hq. unfold add_item.
  assert (Hi : isinstance qty int_t = true) by (destruct qty; try discriminate; reflexivity).
  rewrite Hi. simpl. run. unfold py_add. now rewrite Hq, Hn.
Qed.

(** ** The effect of the two mutators on the dictionary *)

Lemma remove_item_inventory (s : state) (item : string) (qty : pyval) :
  (remove_item item qty s).1 = Ok tt /\
  inventory (remove_item item qty s).2 = remove_entry (inventory s) item qty.
Proof.
  unfold remove_entry.
  destruct (dict_lookup (inventory s) item) as [v|] eqn:Hv.
  - destruct (as_int qty) as [n|] eqn:Hn.
    + destruct (as_int v) as [q|] eqn:Hq.
      * rewrite (remove_item_int s item v qty q n Hv Hq Hn).
        destruct (q - n <=? 0); [|split; reflexivity].
        run. rewrite dict_lookup_set_eq. simpl.
        rewrite dict_del_set by eauto. split; reflexivity.
      * unfold remove_item. run. rewrite Hv. simpl. rewrite Hv. simpl.
        unfold py_sub. rewrite Hq. split; reflexivity.
    + rewrite (remove_item_type_error_run s item qty v Hv Hn).
      now destruct (as_int v).
  - now rewrite (remove_item_absent_run s item qty Hv).
Qed.

Lemma remove_entry_other (d : dict) (item k : string) (qty : pyval) :
  k <> item -> dict_lookup (remove_entry d item qty) k = dict_lookup d k.
Proof.
  intros Hne. unfold remove_entry.
  destruct (dict_lookup d item); auto.
  destruct (as_int p); auto. destruct (as_int qty); auto.
  destruct (_ <=? 0).
  - apply dict_lookup_del_ne; congruence.
  - apply dict_lookup_set_ne; congruence.
Qed.

Lemma remove_entry_wf (d : dict) (item : string) (qty : pyval) :
  dict_wf d -> dict_wf (remove_entry d item qty).
Proof.
  intros Hwf. unfold remove_entry.
  destruct (dict_lookup d item); auto.
  destruct (as_int p); auto. destruct (as_int qty); auto.
  destruct (_ <=? 0); auto using dict_wf_del, dict_wf_set.
Qed.

Lemma has_nonpositive_set (d : dict) k v :
  has_nonpositive d = false -> nonpositive v = false ->
  has_nonpositive (dict_set d k v) = false.
Proof.
  unfold has_nonpositive. intros Hd Hv.
  induction d as [|[k0 v0] r IH]; simpl in *.
  - now rewrite Hv.
  - apply orb_false_iff in Hd as [H0 Hr].
    destruct (String.eqb k k0); simpl.
    + now rewrite Hv, Hr.
    + now rewrite H0, IH.
Qed.

Lemma has_nonpositive_del (d : dict) k :
  has_nonpositive d = false -> has_nonpositive (dict_del d k) = false.
Proof.
  unfold has_nonpositive. intros Hd.
  induction d as [|[k0 v0] r IH]; simpl in *; auto.
  apply orb_false_iff in Hd as [H0 Hr].
  destruct (String.eqb k k0); simpl; auto.
  now rewrite H0, IH.
Qed.

(** C3, as the code has it.  After [remove_item] with an integer [qty] on
    an entry that holds an integer, the entry of [item] is gone or strictly
    positive; the entries of all other items are as they were, so an
    inventory without a quantity at or below zero has none afterwards. *)
Theorem remove_item_leaves_item_positive
    (s : state) (item : string) (qty : pyval) (n : Z) :
  dict_wf (inventory s) ->
  as_int qty = Some n ->
  (forall v, dict_lookup (inventory s) item = Some v -> is_Some (as_int v)) ->
  absent_or_positive (dict_lookup (inventory (remove_item item qty s).2) item) /\
  (forall k, k <> item ->
     dict_lookup (inventory (remove_item item qty s).2) k = dict_lookup (inventory s) k) /\
  (has_nonpositive (inventory s) = false ->
     has_nonpositive (inventory (remove_item item qty s).2) = false).
Proof.
  intros Hwf Hn Hint.
  destruct (remove_item_inventory s item qty) as [_ ->].
  split; [|split].
  - unfold remove_entry.
    destruct (dict_lookup (inventory s) item) as [v|] eqn:Hv; simpl.
    + destruct (Hint v eq_refl) as [q Hq]. rewrite Hq, Hn.
      destruct (Z.leb_spec (q - n) 0).
      * now rewrite dict_lookup_del_eq.
      * rewrite dict_lookup_set_eq. simpl. eauto.
    + now rewrite Hv.
  - intros k Hk. now apply remove_entry_other.
  - intros Hpos. unfold remove_entry.
    destruct (dict_lookup (inventory s) item) as [v|]; auto.
    destruct (as_int v) as [q|]; auto. rewrite Hn.
    destruct (Z.leb_spec (q - n) 0).
    + now apply has_nonpositive_del.
    + apply has_nonpositive_set; auto.
      unfold nonpositive, as_int. now apply Z.leb_gt.
Qed.

Lemma remove_item_leaves_item_positive_witness :
  absent_or_positive
    (dict_lookup (inventory (remove_item "apple" (PyInt 3) (start stock)).2) "apple") /\
  (forall k, k <> "apple" ->
     dict_lookup (inventory (remove_item "apple" (PyInt 3) (start stock)).2) k =
     dict_lookup (inventory (start stock)) k) /\
  (has_nonpositive (inventory (start stock)) = false ->
     has_nonpositive (inventory (remove_item "apple" (PyInt 3) (start stock)).2) = false).
Proof.
  apply (remove_item_leaves_item_positive (start stock) "apple" (PyInt 3) 3).
  - exact stock_wf.
  - reflexivity.
  - intros v Hv. vm_compute in Hv. injection Hv as <-. now exists 7.
Defined.

(** C3 does not hold of every entry: an entry that [add_item] created
    with a negative quantity is still there after [remove_item] on another
    item. *)
Lemma remove_item_keeps_other_nonpositive :
  let s1 := (add_item (PyStr "apple") (PyInt (-1)) (start [])).2 in
  let s2 := (remove_item "orange" (PyInt 1) s1).2 in
  inventory s2 = [("apple", PyInt (-1))] /\ has_nonpositive (inventory s2) = true.
Proof. vm_compute. split; reflexivity. Qed.

(** ** Low stock *)

Lemma check_low_items_unfold threshold s :
  check_low_items threshold s = comprehension (low_body threshold) (inventory s) s.
Proof. reflexivity. Qed.

Lemma bind_run {A B} (m : M A) (k : A -> M B) (s : state) :
  bind m k s =
    match m s with
    | (Ok a, s') => k a s'
    | (Raise e, s') => (Raise e, s')
    end.
Proof. reflexivity. Qed.

Lemma low_body_run threshold k v s :
  low_body threshold (k, v) s =
    match py_lt_int v threshold with
    | Ok low => (Ok (if low then Some k else None), s)
    | Raise e => (Raise e, s)
    end.
Proof. unfold low_body, bind, lift, ret. now destruct (py_lt_int v threshold). Qed.

Lemma low_comprehension_state threshold (l : dict) s :
  (comprehension (low_body threshold) l s).2 = s.
Proof.
  induction l as [|[k v] r IH]; cbn [comprehension]; auto.
  rewrite bind_run, low_body_run.
  destruct (py_lt_int v threshold); auto.
  rewrite bind_run.
  destruct (comprehension (low_body threshold) r s) as [[names|e] s']; auto.
Qed.

Lemma low_comprehension_ok threshold (l : dict) s names s' :
  comprehension (low_body threshold) l s = (Ok names, s') ->
  names = map fst (List.filter (below threshold) l) /\ int_valued l.
Proof.
  revert names. induction l as [|[k v] r IH]; cbn [comprehension]; intros names H.
  - injection H as <- <-. split; [reflexivity | constructor].
  - rewrite bind_run, low_body_run in H. unfold py_lt_int in H.
    cbn [List.filter map]. unfold below at 1. cbn [snd].
    destruct (as_int v) as [q|] eqn:Hq; [|discriminate].
    rewrite bind_run in H.
    destruct (comprehension (low_body threshold) r s) as [[ns|e] s1] eqn:E;
      [|discriminate].
    unfold ret in H. injection H as <- <-.
    destruct (IH ns eq_refl) as [-> Hr].
    split.
    + now destruct (q <? threshold).
    + constructor; [cbn [snd]; rewrite Hq; eauto | assumption].
Qed.

Lemma low_comprehension_int threshold (l : dict) s :
  int_valued l ->
  comprehension (low_body threshold) l s =
    (Ok (map fst (List.filter (below threshold) l)), s).
Proof.
  induction 1 as [|[k v] r [q Hq] Hr IH]; cbn [comprehension]; auto.
  rewrite bind_run, low_body_run. unfold py_lt_int.
  cbn [List.filter map]. unfold below at 1. cbn [snd] in *. rewrite Hq.
  rewrite bind_run, IH. now destruct (q <? threshold).
Qed.

Lemma sublist_map_filter {A B} (f : A -> B) (p : A -> bool) (l : list A) :
  sublist (map f (List.filter p l)) (map f l).
Proof.
  induction l as [|x r IH]; simpl; [constructor|].
  destruct (p x); simpl; [now apply sublist_skip | now apply sublist_cons].
Qed.

(** C5. On an inventory of integer quantities [check_low_items] returns
    the names of the entries whose quantity is strictly below the
    threshold, in the order in which the dictionary lists them, and it
    leaves the state, the inventory included, as it found it. *)
Theorem check_low_items_lists_low_stock (s : state) (threshold : Z) :
  int_valued (inventory s) ->
  exists names,
    check_low_items threshold s = (Ok names, s) /\
    names = map fst (List.filter (below threshold) (inventory s)) /\
    sublist names (dict_keys (inventory s)) /\
    (forall item,
       item ∈ names <->
       exists v q, (item, v) ∈ inventory s /\ as_int v = Some q /\ q < threshold) /\
    inventory (check_low_items threshold s).2 = inventory s.
Proof.
  intros Hint. eexists. rewrite check_low_items_unfold.
  rewrite (low_comprehension_int threshold _ s Hint).
  split; [reflexivity|]. split; [reflexivity|]. split; [|split; [|reflexivity]].
  - apply sublist_map_filter.
  - intros item. rewrite list_elem_of_In, in_map_iff. split.
    + intros ([k v] & <- & Hin). apply filter_In in Hin as [Hin Hb].
      unfold below in Hb. simpl in *.
      destruct (as_int v) as [q|] eqn:Hq; [|discriminate].
      exists v, q. rewrite list_elem_of_In. repeat split; auto. now apply Z.ltb_lt.
    + intros (v & q & Hin & Hq & Hlt). exists (item, v). split; [reflexivity|].
      apply filter_In. rewrite <- list_elem_of_In. split; [assumption|].
      unfold below. simpl. rewrite Hq. now apply Z.ltb_lt.
Qed.

Lemma fruit_int_valued : int_valued fruit.
Proof. repeat constructor; simpl; eauto. Qed.

Lemma check_low_items_lists_low_stock_witness :
  exists names,
    check_low_items 5 (start fruit) = (Ok names, start fruit) /\
    names = map fst (List.filter (below 5) (inventory (start fruit))) /\
    sublist names (dict_keys (inventory (start fruit))) /\
    (forall item,
       item ∈ names <->
       exists v q, (item, v) ∈ inventory (start fruit) /\ as_int v = Some q /\ q < 5) /\
    inventory (check_low_items 5 (start fruit)).2 = inventory (start fruit).
Proof.
  apply (check_low_items_lists_low_stock (start fruit) 5).
  exact fruit_int_valued.
Defined.

Example check_low_items_scenario :
  check_low_items 5 (start fruit) = (Ok ["apple"], start fruit).
Proof. reflexivity. Qed.

(** ** Entries that [add_item] creates *)

Lemma add_item_other (s : state) (item qty : pyval) (name : string) :
  item <> PyStr name ->
  dict_lookup (inventory (add_item item qty s).2) name = dict_lookup (inventory s) name.
Proof.
  intros Hne. unfold add_item.
  destruct (negb (isinstance item str_t) || negb (isinstance qty int_t)); [reflexivity|].
  destruct item as [| | |other| |]; try reflexivity.
  run. destruct (py_add _ qty); simpl; [|reflexivity].
  apply dict_lookup_set_ne. congruence.
Qed.

Lemma dict_lookup_app_absent (d : dict) k v :
  dict_lookup d k = None -> dict_lookup (d ++ [(k, v)]) k = Some v.
Proof.
  intros H. rewrite <- dict_set_absent by assumption. apply dict_lookup_set_eq.
Qed.



(** ** Sequences of operations *)

Lemma int_only_lookup (d : dict) k v :
  int_only d -> dict_lookup d k = Some v -> exists z, v = PyInt z.
Proof.
  induction 1 as [|[k0 v0] r Hz Hr IH]; simpl; [discriminate|].
  destruct (String.eqb k k0); [|assumption].
  intros [= <-]. exact Hz.
Qed.

Lemma int_only_set (d : dict) k z : int_only d -> int_only (dict_set d k (PyInt z)).
Proof.
  induction 1 as [|[k0 v0] r Hz Hr IH]; simpl.
  - repeat constructor. simpl. eauto.
  - destruct (String.eqb k k0); constructor; simpl; eauto.
Qed.

Lemma int_only_del (d : dict) k : int_only d -> int_only (dict_del d k).
Proof.
  induction 1 as [|[k0 v0] r Hz Hr IH]; simpl; [constructor|].
  destruct (String.eqb k k0); [assumption | now constructor].
Qed.

Lemma int_only_int_valued (d : dict) : int_only d -> int_valued d.
Proof.
  unfold int_only, int_valued. intros H. eapply Forall_impl; [exact H|].
  intros [k v] [z Hz]. simpl in *. subst v. now exists z.
Qed.

Lemma held_lookup (d : dict) item :
  int_only d ->
  dict_lookup d item = (fun z => PyInt z) <$> held d item.
Proof.
  intros Hint. unfold held. destruct (dict_lookup d item) as [v|] eqn:E; [|reflexivity].
  destruct (int_only_lookup d item v Hint E) as [z ->]. reflexivity.
Qed.

(** One operation moves the dictionary as the ledger says. *)
Lemma run_op_ledger (o : op) (s : state) :
  dict_wf (inventory s) -> int_only (inventory s) ->
  (run_op o s).1 = Ok tt /\
  dict_wf (inventory (run_op o s).2) /\
  int_only (inventory (run_op o s).2) /\
  forall item,
    held (inventory (run_op o s).2) item = ledger_step item (held (inventory s) item) o.
Proof.
  intros Hwf Hint. destruct o as [i q|i q]; cbn [run_op ledger_step].
  - assert (Hq : as_int (match dict_lookup (inventory s) i with
                         | Some v => v | None => PyInt 0 end)
                 = Some (match held (inventory s) i with Some b => b | None => 0 end)).
    { rewrite (held_lookup _ i Hint). now destruct (held (inventory s) i). }
    rewrite (add_item_int s i (PyInt q) _ q eq_refl Hq). cbn [fst snd inventory].
    split; [reflexivity|]. split; [now apply dict_wf_set|].
    split; [now apply int_only_set|].
    intros item. unfold held at 1. destruct (String.eqb_spec i item) as [->|Hne].
    + now rewrite dict_lookup_set_eq.
    + now rewrite dict_lookup_set_ne.
  - destruct (remove_item_inventory s i (PyInt q)) as [-> ->].
    split; [reflexivity|]. split; [now apply remove_entry_wf|].
    assert (Hre : remove_entry (inventory s) i (PyInt q) =
                  match held (inventory s) i with
                  | Some b => if b - q <=? 0 then dict_del (inventory s) i
                              else dict_set (inventory s) i (PyInt (b - q))
                  | None => inventory s
                  end).
    { unfold remove_entry. rewrite (held_lookup _ i Hint).
      now destruct (held (inventory s) i). }
    split.
    + rewrite Hre. destruct (held (inventory s) i); [|assumption].
      destruct (_ <=? 0); auto using int_only_del, int_only_set.
    + intros item. destruct (String.eqb_spec i item) as [->|Hne].
      * rewrite Hre. destruct (held (inventory s) item) as [b|] eqn:Hb; [|assumption].
        unfold held. destruct (b - q <=? 0).
        -- now rewrite dict_lookup_del_eq.
        -- now rewrite dict_lookup_set_eq.
      * unfold held. now rewrite remove_entry_other by congruence.
Qed.

Lemma run_ops_cons o ops s :
  run_ops (o :: ops) s =
    match run_op o s with
    | (Ok _, s') => run_ops ops s'
    | (Raise e, s') => (Raise e, s')
    end.
Proof. reflexivity. Qed.

Lemma run_ops_ledger (ops : list op) (s : state) :
  dict_wf (inventory s) -> int_only (inventory s) ->
  (run_ops ops s).1 = Ok tt /\
  dict_wf (inventory (run_ops ops s).2) /\
  int_only (inventory (run_ops ops s).2) /\
  forall item,
    held (inventory (run_ops ops s).2) item =
    fold_left (ledger_step item) ops (held (inventory s) item).
Proof.
  revert s. induction ops as [|o ops IH]; intros s Hwf Hint.
  - repeat split; auto.
  - rewrite run_ops_cons.
    destruct (run_op_ledger o s Hwf Hint) as (Hok & Hwf' & Hint' & Hstep).
    destruct (run_op o s) as [[[]|e] s1]; [|discriminate]. cbn [fst snd] in *.
    destruct (IH s1 Hwf' Hint') as (Hok2 & Hwf2 & Hint2 & Hfold).
    repeat split; auto.
    intros item. cbn [fold_left]. now rewrite Hfold, Hstep.
Qed.

Lemma run_ops_app ops1 ops2 s :
  (run_ops ops1 s).1 = Ok tt ->
  run_ops (ops1 ++ ops2) s = run_ops ops2 (run_ops ops1 s).2.
Proof.
  revert s. induction ops1 as [|o ops1 IH]; intros s Hok; [reflexivity|].
  cbn [app]. rewrite !run_ops_cons. rewrite run_ops_cons in Hok.
  destruct (run_op o s) as [[[]|e] s1]; [now apply IH | discriminate].
Qed.

Lemma ledger_snoc ops o item :
  ledger (ops ++ [o]) item = ledger_step item (ledger ops item) o.
Proof. unfold ledger. now rewrite fold_left_app. Qed.

Lemma total_added_snoc item ops o :
  total_added item (ops ++ [o]) =
  total_added item ops +
  match o with Add i q => if String.eqb i item then q else 0 | Remove _ _ => 0 end.
Proof.
  induction ops as [|[i q|i q] ops IH]; cbn [app total_added].
  - destruct o; lia.
  - rewrite IH. lia.
  - exact IH.
Qed.

Lemma total_removed_snoc item ops o :
  total_removed item (ops ++ [o]) =
  total_removed item ops +
  match o with Remove i q => if String.eqb i item then q else 0 | Add _ _ => 0 end.
Proof.
  induction ops as [|[i q|i q] ops IH]; cbn [app total_removed].
  - destruct o; lia.
  - exact IH.
  - rewrite IH. lia.
Qed.

Lemma ledger_never_added ops item :
  (forall q, Add item q ∉ ops) -> ledger ops item = None.
Proof.
  induction ops as [|o ops IH] using rev_ind; intros Hno; [reflexivity|].
  rewrite ledger_snoc, IH.
  - destruct o as [i q|i q]; cbn [ledger_step].
    + destruct (String.eqb_spec i item) as [->|]; [|reflexivity].
      exfalso. apply (Hno q). apply elem_of_app. right. now left.
    + now destruct (String.eqb i item).
  - intros q Hin. apply (Hno q). apply elem_of_app. now left.
Qed.

(** While no removal of the item fails or closes its entry, the balance is
    the sum of what was added minus the sum of what was removed. *)
Lemma ledger_sums ops item :
  (forall p q r, ops = p ++ Remove item q :: r ->
     ledger (p ++ [Remove item q]) item <> None) ->
  match ledger ops item with
  | Some b => b = total_added item ops - total_removed item ops
  | None => total_added item ops = 0 /\ total_removed item ops = 0
  end.
Proof.
  induction ops as [|o ops IH] using rev_ind; intros Hkeep; [simpl; auto|].
  assert (Hprev : forall p q r, ops = p ++ Remove item q :: r ->
                    ledger (p ++ [Remove item q]) item <> None).
  { intros p q r ->. apply (Hkeep p q (r ++ [o])). now rewrite <- app_assoc. }
  specialize (IH Hprev).
  rewrite ledger_snoc, total_added_snoc, total_removed_snoc.
  destruct o as [i q|i q]; cbn [ledger_step].
  - destruct (String.eqb_spec i item) as [->|].
    + destruct (ledger ops item); lia.
    + destruct (ledger ops item); lia.
  - destruct (String.eqb_spec i item) as [->|].
    + specialize (Hkeep ops q [] eq_refl). rewrite ledger_snoc in Hkeep.
      cbn [ledger_step] in Hkeep. rewrite String.eqb_refl in Hkeep.
      destruct (ledger ops item) as [b|]; [|congruence].
      destruct (b - q <=? 0); [congruence | lia].
    + destruct (ledger ops item); lia.
Qed.



Example demo_ops_quantities :
  expected_qty demo_ops "apple" = 7 /\
  expected_qty demo_ops "banana" = 5 /\
  expected_qty demo_ops "orange" = 0 /\
  inventory (run_ops demo_ops (start [])).2 = [("apple", PyInt 7); ("banana", PyInt 5)].
Proof. repeat split. Qed.

(** ** Reading back what [json.dumps] wrote *)

Section JsonRoundTrip.
Import json.

Lemma scanstring_escape_char (c : ascii) (r : list ascii) :
  scanstring (escape_char c ++ r) = prepend c (scanstring r).
Proof. destruct c as [[] [] [] [] [] [] [] []]; reflexivity. Qed.

Lemma scanstring_escape (s : string) (rest : list ascii) :
  scanstring (escape s ++ dquote :: rest) = Parsed s rest.
Proof.
  induction s as [|c s IH]; cbn [escape].
  - reflexivity.
  - rewrite <- app_assoc, scanstring_escape_char, IH. reflexivity.
Qed.

Lemma span_digits_uint (d : Decimal.uint) (rest : list ascii) :
  starts_with_digit rest = false ->
  span_digits (chars (NilEmpty.string_of_uint d) ++ rest) =
    (chars (NilEmpty.string_of_uint d), rest).
Proof.
  intros Hrest. unfold chars.
  induction d; cbn [NilEmpty.string_of_uint list_ascii_of_string app];
    try (cbn [span_digits];
         match goal with |- context [is_digit ?c] => change (is_digit c) with true end;
         cbv iota; rewrite IHd; reflexivity).
  destruct rest as [|c r]; [reflexivity|]. cbn [span_digits].
  cbn in Hrest. now rewrite Hrest.
Qed.

Lemma digits_value_uint (d : Decimal.uint) :
  d <> Decimal.Nil ->
  digits_value (chars (NilEmpty.string_of_uint d)) = Some (Z.of_uint d).
Proof.
  intros Hd. unfold digits_value, chars.
  rewrite string_of_list_ascii_of_string.
  replace (NilEmpty.string_of_uint d) with (NilZero.string_of_uint d)
    by (destruct d; [congruence | reflexivity ..]).
  now rewrite NilZero.usu.
Qed.

(** The decimal notation of a positive number starts with a digit that is
    not 0. *)
Lemma to_uint_head (p : positive) :
  exists c s,
    NilEmpty.string_of_uint (Pos.to_uint p) = String c s /\
    is_digit c = true /\ Ascii.eqb c "0"%char = false.
Proof.
  assert (Hnorm : Decimal.unorm (Pos.to_uint p) = Pos.to_uint p).
  { rewrite <- (DecimalPos.Unsigned.to_of (Pos.to_uint p)).
    now rewrite DecimalPos.Unsigned.of_to. }
  assert (Hnz := DecimalPos.Unsigned.to_uint_nonzero p).
  assert (Hnn := DecimalPos.Unsigned.to_uint_nonnil p).
  destruct (Pos.to_uint p) as [|u|u|u|u|u|u|u|u|u|u] eqn:E; try congruence;
    try (cbn [NilEmpty.string_of_uint]; do 2 eexists; repeat split; reflexivity).
  exfalso. rewrite DecimalFacts.unorm_D0 in Hnorm.
  destruct (Decimal.uint_eq_dec u Decimal.Nil) as [->|Hu].
  - now apply Hnz.
  - pose proof (DecimalFacts.nb_digits_unorm u Hu) as Hle. rewrite Hnorm in Hle.
    cbn [Decimal.nb_digits] in Hle. lia.
Qed.

Lemma of_uint_to_uint (p : positive) : Z.of_uint (Pos.to_uint p) = Z.pos p.
Proof. unfold Z.of_uint. now rewrite DecimalPos.Unsigned.of_to. Qed.

Lemma scan_integer_pos (negative : bool) (p : positive) (rest : list ascii) :
  number_end rest ->
  scan_integer negative (chars (NilEmpty.string_of_uint (Pos.to_uint p)) ++ rest) =
    Parsed (PyInt (if negative then Z.neg p else Z.pos p)) rest.
Proof.
  intros [Hfloat Hdigit].
  pose proof (span_digits_uint (Pos.to_uint p) rest Hdigit) as Hspan.
  pose proof (digits_value_uint (Pos.to_uint p)
                (DecimalPos.Unsigned.to_uint_nonnil p)) as Hval.
  rewrite of_uint_to_uint in Hval.
  destruct (to_uint_head p) as (c & s & E & Hc & H0).
  rewrite E in *. unfold chars in *. cbn [list_ascii_of_string app] in *.
  unfold scan_integer. rewrite H0, Hc, Hspan, Hfloat, Hval.
  now destruct negative.
Qed.

Lemma digit_not_special (c : ascii) :
  is_digit c = true ->
  is_ws c = false /\
  (forall r, scan_number (c :: r) = scan_integer false (c :: r)) /\
  (forall r, scan_number ("-"%char :: c :: r) = scan_integer true (c :: r)) /\
  (forall fuel r, scan_once (S fuel) (c :: r) = scan_number (c :: r)).
Proof.
  destruct c as [[] [] [] [] [] [] [] []]; try discriminate; intros _;
    repeat split.
Qed.

Lemma scan_once_decimal (fuel : nat) (z : Z) (rest : list ascii) :
  number_end rest ->
  scan_once (S fuel) (decimal z ++ rest) = Parsed (PyInt z) rest /\
  skip_ws (decimal z ++ rest) = decimal z ++ rest.
Proof.
  intros Hend. unfold decimal. destruct z as [|p|p]; cbn [Z.to_int].
  - destruct Hend as [Hfloat _]. cbn. now rewrite Hfloat.
  - pose proof (scan_integer_pos false p rest Hend) as Hscan.
    replace (NilZero.string_of_int (Decimal.Pos (Pos.to_uint p)))
      with (NilEmpty.string_of_uint (Pos.to_uint p)).
    2:{ unfold NilZero.string_of_int, NilZero.string_of_uint.
        pose proof (DecimalPos.Unsigned.to_uint_nonnil p).
        destruct (Pos.to_uint p); [congruence | reflexivity ..]. }
    destruct (to_uint_head p) as (c & s & E & Hc & _).
    rewrite E in *. unfold chars in *. cbn [list_ascii_of_string app] in *.
    destruct (digit_not_special c Hc) as (Hws & Hnum & _ & Honce).
    rewrite Honce, Hnum, Hscan. cbn [skip_ws]. now rewrite Hws.
  - pose proof (scan_integer_pos true p rest Hend) as Hscan.
    replace (NilZero.string_of_int (Decimal.Neg (Pos.to_uint p)))
      with (String "-"%char (NilEmpty.string_of_uint (Pos.to_uint p))).
    2:{ unfold NilZero.string_of_int, NilZero.string_of_uint.
        pose proof (DecimalPos.Unsigned.to_uint_nonnil p).
        destruct (Pos.to_uint p); [congruence | reflexivity ..]. }
    destruct (to_uint_head p) as (c & s & E & Hc & _).
    rewrite E in *. unfold chars in *. cbn [list_ascii_of_string app] in *.
    destruct (digit_not_special c Hc) as (_ & _ & Hneg & _).
    split; [|reflexivity].
    change (scan_once (S fuel) ("-"%char :: c :: list_ascii_of_string s ++ rest))
      with (scan_number ("-"%char :: c :: list_ascii_of_string s ++ rest)).
    now rewrite Hneg.
Qed.

(** A value that is an instance of [int] reads back as itself. *)
Lemma scan_once_int (fuel indent level : nat) (v : pyval) (rest : list ascii) :
  isinstance v int_t = true ->
  number_end rest ->
  scan_once (S fuel) (encode indent level v ++ rest) = Parsed v rest /\
  skip_ws (encode indent level v ++ rest) = encode indent level v ++ rest.
Proof.
  intros Hint Hend. destruct v as [|[]|z| | |]; try discriminate.
  - split; reflexivity.
  - split; reflexivity.
  - now apply scan_once_decimal.
Qed.

Lemma join_cons_cons sep a b l :
  join sep (a :: b :: l) = a ++ sep ++ join sep (b :: l).
Proof. reflexivity. Qed.

Lemma join_members_text indent k x kvs rest :
  join (chars "," ++ newline_indent indent 1)
       (map (fun '(k, x) => encode_string k ++ chars ": " ++ encode indent 1 x)
            ((k, x) :: kvs))
    ++ newline_indent indent 0 ++ chars "}" ++ rest =
  dquote :: members_text indent k x kvs rest.
Proof.
  revert k x. induction kvs as [|[k' x'] kvs IH]; intros k x.
  - cbn [map join members_text]. unfold encode_string, chars.
    cbn [list_ascii_of_string]. rewrite <- !app_assoc. cbn [app].
    rewrite <- !app_assoc. reflexivity.
  - cbn [map] in *. rewrite join_cons_cons. cbn [members_text].
    rewrite <- !app_assoc.
    rewrite IH. unfold encode_string, chars.
    cbn [list_ascii_of_string]. rewrite <- ?app_assoc. cbn [app].
    rewrite <- ?app_assoc. reflexivity.
Qed.

Lemma encode_dict_text indent k x kvs rest :
  encode indent 0 (PyDict ((k, x) :: kvs)) ++ rest =
  "{"%char :: newline_indent indent 1 ++ dquote :: members_text indent k x kvs rest.
Proof.
  cbn [encode]. rewrite <- !app_assoc.
  rewrite (join_members_text indent k x kvs rest). reflexivity.
Qed.

Lemma skip_ws_indent indent level c r :
  is_ws c = false ->
  skip_ws (newline_indent indent level ++ c :: r) = c :: r.
Proof.
  intros Hc. unfold newline_indent. cbn [app skip_ws].
  change (is_ws newline) with true. cbv iota.
  induction (indent * level)%nat as [|n IH]; cbn [repeat app skip_ws].
  - now rewrite Hc.
  - exact IH.
Qed.

(** One pair read, [members] goes on behind the value. *)
Lemma members_step fuel s pairs key r r1 v r2 :
  scanstring s = Parsed key r ->
  skip_ws r = ":"%char :: r1 ->
  scan_once fuel (skip_ws r1) = Parsed v r2 ->
  members (S fuel) s pairs =
    match skip_ws r2 with
    | c2 :: r3 =>
      if Ascii.eqb c2 "}"%char then Parsed (PyDict (dict_set pairs key v)) r3
      else if Ascii.eqb c2 ","%char then
        match skip_ws r3 with
        | c3 :: r4 =>
          if Ascii.eqb c3 dquote then members fuel r4 (dict_set pairs key v)
          else Malformed
        | [] => Malformed
        end
      else Malformed
    | [] => Malformed
    end.
Proof.
  intros Hkey Hcolon Hvalue. cbn [members]. rewrite Hkey, Hcolon.
  change (Ascii.eqb ":" ":") with true. cbv iota. now rewrite Hvalue.
Qed.

(** With fuel beyond the number of pairs, [members] reads all of them. *)
Lemma members_pairs indent kvs k x pairs fuel rest :
  isinstance x int_t = true ->
  Forall (fun kv : string * pyval => isinstance kv.2 int_t = true) kvs ->
  (length kvs + 1 < fuel)%nat ->
  members fuel (members_text indent k x kvs rest) pairs =
    Parsed (PyDict (dict_of_pairs (dict_set pairs k x) kvs)) rest.
Proof.
  revert k x pairs fuel.
  induction kvs as [|[k' x'] kvs IH]; intros k x pairs fuel Hx Hkvs Hfuel;
    (destruct fuel as [|[|fuel]]; [cbn [length] in Hfuel; lia .. |]);
    cbn [members_text].
  - assert (Hend : number_end (newline_indent indent 0 ++ "}"%char :: rest))
      by (split; reflexivity).
    destruct (scan_once_int fuel indent 1 x _ Hx Hend) as [Hscan Hskip].
    erewrite members_step;
      [ | apply scanstring_escape | reflexivity
        | cbn [skip_ws]; change (is_ws space) with true; cbv iota;
          rewrite Hskip; exact Hscan ].
    now rewrite skip_ws_indent.
  - assert (Hend : number_end (","%char :: newline_indent indent 1 ++
                               dquote :: members_text indent k' x' kvs rest))
      by (split; reflexivity).
    destruct (scan_once_int fuel indent 1 x _ Hx Hend) as [Hscan Hskip].
    erewrite members_step;
      [ | apply scanstring_escape | reflexivity
        | cbn [skip_ws]; change (is_ws space) with true; cbv iota;
          rewrite Hskip; exact Hscan ].
    cbn [skip_ws]. change (is_ws ",") with false. cbv iota.
    change (Ascii.eqb "," "}") with false. change (Ascii.eqb "," ",") with true.
    cbv iota. rewrite skip_ws_indent by reflexivity.
    change (Ascii.eqb dquote dquote) with true. cbv iota.
    apply Forall_cons_1 in Hkvs as [Hx' Hkvs].
    rewrite IH; [reflexivity | assumption | assumption | cbn [length] in Hfuel; lia].
Qed.

Lemma dict_of_pairs_fresh (kvs pairs : dict) :
  dict_wf (pairs ++ kvs) -> dict_of_pairs pairs kvs = pairs ++ kvs.
Proof.
  revert pairs. induction kvs as [|[k v] kvs IH]; intros pairs Hwf.
  - now rewrite app_nil_r.
  - unfold dict_of_pairs in *. cbn [fold_left fst snd].
    assert (Hfresh : dict_lookup pairs k = None).
    { apply dict_lookup_None. unfold dict_wf, dict_keys in Hwf.
      rewrite map_app in Hwf. apply NoDup_app in Hwf as (_ & Hdisj & _).
      intros Hin. apply (Hdisj k Hin). now left. }
    rewrite dict_set_absent by assumption.
    rewrite IH; rewrite <- app_assoc; [reflexivity | exact Hwf].
Qed.

Lemma members_text_length indent k x kvs rest :
  (length kvs + 3 <= length (members_text indent k x kvs rest))%nat.
Proof.
  revert k x. induction kvs as [|[k' x'] kvs IH]; intros k x;
    cbn [members_text]; rewrite length_app; cbn [length]; rewrite length_app;
    cbn [length].
  - lia.
  - rewrite length_app. cbn [length]. specialize (IH k' x'). lia.
Qed.

Lemma as_int_isinstance (v : pyval) :
  is_Some (as_int v) <-> isinstance v int_t = true.
Proof.
  destruct v; cbn; split; intros H; try discriminate; eauto;
    destruct H; discriminate.
Qed.

(** What [dumps] writes for a dictionary of integers, [loads] reads back. *)
Lemma loads_dumps (d : dict) (indent : nat) :
  dict_wf d -> int_valued d ->
  loads (dumps (PyDict d) indent) = Ok (PyDict d).
Proof.
  intros Hwf Hint.
  assert (Hinst : Forall (fun kv : string * pyval => isinstance kv.2 int_t = true) d).
  { eapply Forall_impl; [exact Hint|]. intros [k v]. apply as_int_isinstance. }
  unfold loads, dumps, chars. rewrite list_ascii_of_string_of_list_ascii.
  destruct d as [|[k x] kvs]; [reflexivity|].
  rewrite <- (app_nil_r (encode indent 0 _)), encode_dict_text.
  cbn [skip_ws]. change (is_ws "{") with false. cbv iota.
  cbn [scan_once length].
  change (Ascii.eqb "{" dquote) with false. change (Ascii.eqb "{" "{") with true.
  cbv iota. rewrite skip_ws_indent by reflexivity.
  change (Ascii.eqb dquote "}") with false.
  change (Ascii.eqb dquote dquote) with true. cbv iota.
  apply Forall_cons_1 in Hinst as [Hx Hkvs].
  rewrite members_pairs; try assumption.
  - cbn [skip_ws]. f_equal. f_equal.
    change (dict_set [] k x) with [(k, x)].
    now rewrite dict_of_pairs_fresh.
  - rewrite length_app. cbn [length].
    pose proof (members_text_length indent k x kvs []). lia.
Qed.

End JsonRoundTrip.

(** ** Loading and saving *)

Lemma open_read_allowed (s : state) (filename : string) :
  filename ∉ denied s ->
  open_read filename s =
    match disk s !! filename with
    | Some content => (Ok content, s)
    | None => (Raise FileNotFoundError, s)
    end.
Proof. intros H. unfold open_read. now rewrite bool_decide_eq_false_2. Qed.

(** [load_data], case by case. *)
Lemma load_data_run (J : Json) (s : state) (filename : string) :
  filename ∉ denied s ->
  load_data filename s =
    match disk s !! filename with
    | None => (Ok [], (print (Msg_file_not_found filename) s).2)
    | Some content =>
      match json_load content with
      | Ok (PyDict d) => (Ok d, s)
      | Ok _ => (Ok [], (print Msg_not_a_dictionary s).2)
      | Raise JSONDecodeError => (Ok [], (print (Msg_decode_error filename) s).2)
      | Raise FileNotFoundError => (Ok [], (print (Msg_file_not_found filename) s).2)
      | Raise e => (Raise e, s)
      end
    end.
Proof.
  intros Hallowed. pose proof (open_read_allowed s filename Hallowed) as Hopen.
  unfold load_data, try_except. repeat rewrite bind_run. rewrite Hopen.
  destruct (disk s !! filename) as [content|]; [|reflexivity].
  rewrite bind_run. unfold lift.
  destruct (json_load content) as [[]|[]]; reflexivity.
Qed.



Lemma save_data_allowed (J : Json) (s : state) (filename : string) :
  filename ∉ denied s ->
  save_data filename s =
    (Ok tt,
     mkState (inventory s) (stdout s ++ [Msg_saved filename])
             (<[filename := json_dump (PyDict (inventory s)) 4]>
                (<[filename := EmptyString]> (disk s)))
             (denied s) (clock s) (ticks s)).
Proof.
  intros Hallowed. unfold save_data, try_except, open_write. rewrite bind_run.
  now rewrite bool_decide_eq_false_2.
Qed.

(** When the file cannot be opened, [save_data] prints the error and
    returns; the disk stays as it was. *)
Lemma save_data_denied (J : Json) (s : state) (filename : string) :
  filename ∈ denied s ->
  save_data filename s = print (Msg_save_error filename PermissionError) s.
Proof.
  intros Hdenied. unfold save_data, try_except, open_write. rewrite bind_run.
  now rewrite bool_decide_eq_true_2.
Qed.


Lemma stock_int_valued : int_valued stock.
Proof. repeat constructor; simpl; eauto. Qed.


(** ** The scenarios of the specification *)

Example scenario_add :
  (add_item (PyStr "apple") (PyInt 10) ;;; get_qty "apple") (start []) =
  (Ok (PyInt 10),
   mkState [("apple", PyInt 10)] [Msg_added 0%nat (PyInt 10) "apple"] ∅ ∅
           (fun n => n) 1%nat).
Proof. reflexivity. Qed.

Example scenario_remove_some :
  inventory (remove_item "apple" (PyInt 3) (start [("apple", PyInt 10)])).2 =
  [("apple", PyInt 7)].
Proof. reflexivity. Qed.

Example scenario_remove_all :
  (remove_item "apple" (PyInt 7) ;;; get_qty "apple") (start [("apple", PyInt 7)]) =
  (Ok (PyInt 0), mkState [] [Msg_removed_all "apple"] ∅ ∅ (fun n => n) 0%nat).
Proof. reflexivity. Qed.

Example scenario_saved_text :
  json.dumps (PyDict stock) 4 =
  String.concat (String "010"%char EmptyString)
    ["{"; "    " ++ String "034"%char "apple" ++ String "034"%char ": 7,";
     "    " ++ String "034"%char "banana" ++ String "034"%char ": 2"; "}"]%string.
Proof. reflexivity. Qed.

Example scenario_main :
  let s := (main (start [])).2 in
  (main (start [])).1 = Ok tt /\
  inventory s = [("apple", PyInt 7); ("banana", PyInt 2)] /\
  stdout s =
    [Msg_file_not_found "inventory.json"; Msg_added 0%nat (PyInt 10) "apple";
     Msg_added 1%nat (PyInt 2) "banana"; Msg_invalid_types int_t str_t;
     Msg_removed (PyInt 3) "apple" (PyInt 7); Msg_not_in_stock "orange";
     Msg_apple_stock (PyInt 7); Msg_low_items ["banana"]; Msg_report_header;
     Msg_report_line "apple" (PyInt 7); Msg_report_line "banana" (PyInt 2);
     Msg_report_footer; Msg_saved "inventory.json"; Msg_finished] /\
  disk s !! "inventory.json" = Some (json.dumps (PyDict stock) 4).
Proof. vm_compute. repeat split. Qed.

(** The round trip needs the write to happen: on a name the process may not
    open, [save_data] reports the error and [load_data] raises. *)
Example save_data_denied_example :
  let s := with_denied "inventory.json" (start stock) in
  save_data "inventory.json" s =
    print (Msg_save_error "inventory.json" PermissionError) s /\
  (load_data "inventory.json" (save_data "inventory.json" s).2).1 =
    Raise PermissionError.
Proof.
  split.
  - apply (save_data_denied py_json). apply elem_of_union_l. now apply elem_of_singleton.
  - rewrite (save_data_denied py_json)
      by (apply elem_of_union_l; now apply elem_of_singleton).
    unfold load_data, try_except. rewrite bind_run. unfold open_read.
    cbn [print snd denied with_denied].
    rewrite bool_decide_eq_true_2
      by (apply elem_of_union_l; now apply elem_of_singleton).
    reflexivity.
Qed.

(** * Further properties *)

(** ** More on dictionaries *)

Lemma dict_set_set (d : dict) k a b :
  dict_set (dict_set d k a) k b = dict_set d k b.
Proof.
  induction d as [|[k0 v0] r IH]; simpl.
  - now rewrite String.eqb_refl.
  - destruct (String.eqb k k0) eqn:E; simpl; rewrite E; [reflexivity | now rewrite IH].
Qed.

Lemma dict_set_same (d : dict) k v :
  dict_lookup d k = Some v -> dict_set d k v = d.
Proof.
  induction d as [|[k0 v0] r IH]; simpl; [discriminate|].
  destruct (String.eqb_spec k k0) as [->|Hne].
  - now intros [= ->].
  - intros H. now rewrite IH.
Qed.

Lemma dict_del_app_absent (d : dict) k v :
  dict_lookup d k = None -> dict_del (d ++ [(k, v)]) k = d.
Proof.
  induction d as [|[k0 v0] r IH]; simpl.
  - now rewrite String.eqb_refl.
  - destruct (String.eqb k k0); [discriminate|]. intros H. now rewrite IH.
Qed.

Lemma dict_keys_set (d : dict) k v :
  dict_keys (dict_set d k v) =
    match dict_lookup d k with
    | Some _ => dict_keys d
    | None => dict_keys d ++ [k]
    end.
Proof.
  destruct (dict_lookup d k) eqn:E.
  - apply dict_keys_set_present. eauto.
  - rewrite dict_set_absent by assumption. unfold dict_keys.
    now rewrite map_app.
Qed.

Lemma int_valued_lookup (d : dict) k v :
  int_valued d -> dict_lookup d k = Some v -> is_Some (as_int v).
Proof.
  induction 1 as [|[k0 v0] r Hv Hr IH]; simpl; [discriminate|].
  destruct (String.eqb k k0); [|assumption].
  intros [= <-]. exact Hv.
Qed.

Lemma int_valued_set (d : dict) k z : int_valued d -> int_valued (dict_set d k (PyInt z)).
Proof.
  induction 1 as [|[k0 v0] r Hv Hr IH]; simpl.
  - repeat constructor. simpl. eauto.
  - destruct (String.eqb k k0); constructor; simpl; eauto.
Qed.

Lemma int_valued_del (d : dict) k : int_valued d -> int_valued (dict_del d k).
Proof.
  induction 1 as [|[k0 v0] r Hv Hr IH]; simpl; [constructor|].
  destruct (String.eqb k k0); [assumption | now constructor].
Qed.

Lemma isinstance_int_as_int (v : pyval) :
  isinstance v int_t = true -> exists n, as_int v = Some n.
Proof. destruct v; try discriminate; intros _; eexists; reflexivity. Qed.

(** ** More on [add_item] *)



Lemma add_item_type_error_run (s : state) (name : string) (qty v : pyval) :
  isinstance qty int_t = true ->
  dict_lookup (inventory s) name = Some v ->
  as_int v = None ->
  add_item (PyStr name) qty s = (Raise TypeError, s).
Proof.
  intros Hqty Hv Hnone. unfold add_item. rewrite Hqty. simpl. run. rewrite Hv.
  unfold py_add. rewrite Hnone.
  destruct v; try discriminate; destruct qty; try discriminate; reflexivity.
Qed.

(** X2. When the entry of [item] holds something that is no number,
    [add_item] with valid arguments raises [TypeError], which nothing in
    the function catches, and leaves the whole state as it was. *)
Theorem add_item_stored_not_number
    (s : state) (name : string) (qty v : pyval) :
  isinstance qty int_t = true ->
  dict_lookup (inventory s) name = Some v ->
  as_int v = None ->
  add_item (PyStr name) qty s = (Raise TypeError, s).
Proof.
  intros Hqty Hv Hnone. unfold add_item. rewrite Hqty. simpl. run. rewrite Hv.
  unfold py_add. rewrite Hnone.
  destruct v; try discriminate; destruct qty; try discriminate; reflexivity.
Qed.

Lemma add_item_stored_not_number_witness :
  add_item (PyStr "apple") (PyInt 10) (start [("apple", PyStr "seven")]) =
  (Raise TypeError, start [("apple", PyStr "seven")]).
Proof.
  apply (add_item_stored_not_number _ "apple" (PyInt 10) (PyStr "seven")).
  - reflexivity.
  - reflexivity.
  - reflexivity.
Defined.

(** ** More on [remove_item] *)

(** [remove_item], in one equation. *)
Lemma remove_item_state (s : state) (item : string) (qty : pyval) :
  remove_item item qty s =
    (Ok tt,
     mkState (remove_entry (inventory s) item qty)
             (stdout s ++ [remove_message (inventory s) item qty])
             (disk s) (denied s) (clock s) (ticks s)).
Proof.
  unfold remove_entry, remove_message.
  destruct (dict_lookup (inventory s) item) as [v|] eqn:Hv.
  - destruct (as_int qty) as [n|] eqn:Hn.
    + destruct (as_int v) as [q|] eqn:Hq.
      * rewrite (remove_item_int s item v qty q n Hv Hq Hn).
        destruct (q - n <=? 0); [|reflexivity].
        run. rewrite dict_lookup_set_eq. simpl.
        now rewrite dict_del_set by eauto.
      * unfold remove_item. run. rewrite Hv. simpl. rewrite Hv. simpl.
        unfold py_sub. now rewrite Hq.
    + rewrite (remove_item_type_error_run s item qty v Hv Hn).
      now destruct (as_int v).
  - now rewrite (remove_item_absent_run s item qty Hv).
Qed.

Lemma remove_entry_keys (d : dict) (item : string) (qty : pyval) :
  sublist (dict_keys (remove_entry d item qty)) (dict_keys d).
Proof.
  unfold remove_entry. destruct (dict_lookup d item) as [v|] eqn:Hv; [|reflexivity].
  destruct (as_int v); [|reflexivity]. destruct (as_int qty); [|reflexivity].
  destruct (_ <=? 0).
  - apply dict_keys_del_sublist.
  - rewrite dict_keys_set_present by eauto. reflexivity.
Qed.




(** X5. [add_item] and [remove_item] act on one entry: whatever the
    arguments, the entry of every other item is as before. *)
Theorem mutators_leave_other_items
    (s : state) (other name : string) (item qty : pyval) :
  item <> PyStr other ->
  name <> other ->
  dict_lookup (inventory (add_item item qty s).2) other =
    dict_lookup (inventory s) other /\
  dict_lookup (inventory (remove_item name qty s).2) other =
    dict_lookup (inventory s) other.
Proof.
  intros Hitem Hname. split.
  - now apply add_item_other.
  - rewrite remove_item_state. cbn [snd inventory].
    apply remove_entry_other. congruence.
Qed.

Lemma mutators_leave_other_items_witness :
  dict_lookup (inventory (add_item (PyStr "apple") (PyInt 5) (start stock)).2) "banana" =
    dict_lookup (inventory (start stock)) "banana" /\
  dict_lookup (inventory (remove_item "apple" (PyInt 9) (start stock)).2) "banana" =
    dict_lookup (inventory (start stock)) "banana".
Proof.
  apply (mutators_leave_other_items (start stock) "banana" "apple" (PyStr "apple") (PyInt 5)).
  - discriminate.
  - discriminate.
Defined.

Lemma remove_entry_int_valued (d : dict) (item : string) (qty : pyval) :
  int_valued d -> int_valued (remove_entry d item qty).
Proof.
  intros Hint. unfold remove_entry.
  destruct (dict_lookup d item) as [v|]; [|assumption].
  destruct (as_int v); [|assumption]. destruct (as_int qty); [|assumption].
  destruct (_ <=? 0); auto using int_valued_del, int_valued_set.
Qed.





(** X8. [remove_item] does not look at the sign of [qty]: removing [-n]
    from an entry that holds an integer leaves the same inventory as adding
    [n], as long as the sum is positive. *)
Theorem remove_negative_adds (s : state) (name : string) (v : pyval) (q n : Z) :
  dict_lookup (inventory s) name = Some v ->
  as_int v = Some q ->
  0 < q + n ->
  inventory (remove_item name (PyInt (- n)) s).2 =
    inventory (add_item (PyStr name) (PyInt n) s).2 /\
  dict_lookup (inventory (remove_item name (PyInt (- n)) s).2) name = Some (PyInt (q + n)).
Proof.
  intros Hv Hq Hpos.
  rewrite (add_item_int s name (PyInt n) q n eq_refl)
    by (unfold stored_or_zero; now rewrite Hv).
  rewrite remove_item_state. cbn [snd inventory].
  assert (E : remove_entry (inventory s) name (PyInt (- n)) =
              dict_set (inventory s) name (PyInt (q + n))).
  { unfold remove_entry. rewrite Hv, Hq. unfold as_int.
    replace (q - - n) with (q + n) by lia.
    destruct (Z.leb_spec (q + n) 0); [lia | reflexivity]. }
  rewrite E. split; [reflexivity | apply dict_lookup_set_eq].
Qed.

Lemma remove_negative_adds_witness :
  inventory (remove_item "apple" (PyInt (- 5)) (start stock)).2 =
    inventory (add_item (PyStr "apple") (PyInt 5) (start stock)).2 /\
  dict_lookup (inventory (remove_item "apple" (PyInt (- 5)) (start stock)).2) "apple"
    = Some (PyInt (7 + 5)).
Proof.
  apply (remove_negative_adds (start stock) "apple" (PyInt 7) 7 5).
  - reflexivity.
  - reflexivity.
  - lia.
Defined.

(** ** More on [check_low_items] *)

Lemma low_comprehension_type_error threshold (l : dict) s :
  has_non_number l ->
  comprehension (low_body threshold) l s = (Raise TypeError, s).
Proof.
  induction 1 as [[k v] r Hv|[k v] r Hr IH]; cbn [comprehension];
    rewrite bind_run, low_body_run; unfold py_lt_int.
  - cbn [snd] in Hv. now rewrite Hv.
  - destruct (as_int v); [|reflexivity]. now rewrite bind_run, IH.
Qed.

(** X9. [check_low_items] compares every quantity with the threshold: as
    soon as one entry holds something that is no number the call raises
    [TypeError] and returns no list; the state is as before. *)
Theorem check_low_items_type_error (s : state) (threshold : Z) :
  has_non_number (inventory s) ->
  check_low_items threshold s = (Raise TypeError, s).
Proof.
  intros Hbad. rewrite check_low_items_unfold.
  now apply low_comprehension_type_error.
Qed.

Lemma check_low_items_type_error_witness :
  check_low_items 5 (start [("apple", PyInt 3); ("banana", PyStr "two")]) =
  (Raise TypeError, start [("apple", PyInt 3); ("banana", PyStr "two")]).
Proof.
  apply (check_low_items_type_error
           (start [("apple", PyInt 3); ("banana", PyStr "two")]) 5).
  apply Exists_cons_tl. apply Exists_cons_hd. reflexivity.
Defined.

Lemma sublist_map_filter_implies {A B} (f : A -> B) (p q : A -> bool) (l : list A) :
  (forall x, p x = true -> q x = true) ->
  sublist (map f (List.filter p l)) (map f (List.filter q l)).
Proof.
  intros Himp. induction l as [|x r IH]; simpl; [constructor|].
  destruct (p x) eqn:Hp.
  - rewrite (Himp x Hp). simpl. now apply sublist_skip.
  - destruct (q x); simpl; [now apply sublist_cons | assumption].
Qed.

(** X10. On an inventory of integer quantities with distinct keys, the
    list of [check_low_items] names no item twice, and raising the
    threshold only adds names: the list for the lower threshold is a
    sublist, in the same order, of the list for the higher one. *)
Theorem check_low_items_monotone (s : state) (t1 t2 : Z) :
  dict_wf (inventory s) ->
  int_valued (inventory s) ->
  t1 <= t2 ->
  exists names1 names2,
    check_low_items t1 s = (Ok names1, s) /\
    check_low_items t2 s = (Ok names2, s) /\
    sublist names1 names2 /\
    NoDup names2.
Proof.
  intros Hwf Hint Hle. do 2 eexists.
  rewrite !check_low_items_unfold.
  rewrite !(low_comprehension_int _ _ s Hint).
  split; [reflexivity|]. split; [reflexivity|]. split.
  - apply sublist_map_filter_implies. intros [k v]. unfold below. cbn [snd].
    destruct (as_int v); [|discriminate].
    rewrite !Z.ltb_lt. lia.
  - eapply sublist_NoDup; [exact Hwf | apply sublist_map_filter].
Qed.

Lemma check_low_items_monotone_witness :
  exists names1 names2,
    check_low_items 3 (start stock) = (Ok names1, start stock) /\
    check_low_items 8 (start stock) = (Ok names2, start stock) /\
    sublist names1 names2 /\
    NoDup names2.
Proof.
  apply (check_low_items_monotone (start stock) 3 8).
  - exact stock_wf.
  - exact stock_int_valued.
  - lia.
Defined.

Lemma dict_lookup_elem_of (d : dict) k v :
  dict_wf d -> ((k, v) ∈ d <-> dict_lookup d k = Some v).
Proof.
  unfold dict_wf. induction d as [|[k0 v0] r IH]; simpl; intros Hwf.
  - split; [intros H; inversion H | discriminate].
  - apply NoDup_cons in Hwf as [Hnotin Hwf]. rewrite elem_of_cons.
    destruct (String.eqb_spec k k0) as [->|Hne].
    + split.
      * intros [[= ->]|Hin]; [reflexivity|].
        exfalso. apply Hnotin. unfold dict_keys.
        apply list_elem_of_fmap. now exists (k0, v).
      * intros [= ->]. now left.
    + rewrite <- (IH Hwf). split.
      * intros [[= -> _]|Hin]; [congruence | assumption].
      * now right.
Qed.

(** X11. On an inventory of integer quantities with distinct keys,
    [check_low_items] lists exactly the keys whose [get_qty] is below the
    threshold.  An item that is not a key is never listed, although
    [get_qty] answers 0 for it. *)
Theorem check_low_items_agrees_with_get_qty (s : state) (threshold : Z) :
  dict_wf (inventory s) ->
  int_valued (inventory s) ->
  exists names,
    check_low_items threshold s = (Ok names, s) /\
    (forall item,
       (item ∈ names) <->
       (item ∈ dict_keys (inventory s)) /\
       exists v q, get_qty item s = (Ok v, s) /\ as_int v = Some q /\ q < threshold) /\
    (forall item,
       item ∉ dict_keys (inventory s) ->
       (item ∉ names) /\ get_qty item s = (Ok (PyInt 0), s)).
Proof.
  intros Hwf Hint. eexists. rewrite check_low_items_unfold.
  rewrite (low_comprehension_int _ _ s Hint). split; [reflexivity|].
  assert (Hmem : forall item,
             item ∈ map fst (List.filter (below threshold) (inventory s)) <->
             exists v q, dict_lookup (inventory s) item = Some v /\
                         as_int v = Some q /\ q < threshold).
  { intros item. rewrite list_elem_of_In, in_map_iff. split.
    - intros ([k v] & <- & Hin). apply filter_In in Hin as [Hin Hb].
      unfold below in Hb. cbn [fst snd] in *.
      destruct (as_int v) as [q|] eqn:Hq; [|discriminate].
      exists v, q. repeat split; auto.
      + apply dict_lookup_elem_of; [assumption|]. now apply list_elem_of_In.
      + now apply Z.ltb_lt.
    - intros (v & q & Hv & Hq & Hlt). exists (item, v). split; [reflexivity|].
      apply filter_In. split.
      + apply list_elem_of_In. now apply dict_lookup_elem_of.
      + unfold below. cbn [snd]. rewrite Hq. now apply Z.ltb_lt. }
  split.
  - intros item. rewrite Hmem. split.
    + intros (v & q & Hv & Hq & Hlt). split.
      * destruct (dict_lookup_None (inventory s) item) as [_ H].
        destruct (decide (item ∈ dict_keys (inventory s))) as [|Hn]; [assumption|].
        rewrite (H Hn) in Hv. discriminate.
      * exists v, q. repeat split; auto. run. now rewrite Hv.
    + intros (Hin & v & q & Hget & Hq & Hlt).
      revert Hget. run. destruct (dict_lookup (inventory s) item) as [v'|] eqn:Hv.
      * intros [= <-]. eauto.
      * intros _. exfalso. apply dict_lookup_None in Hv. now apply Hv.
  - intros item Hnot. apply dict_lookup_None in Hnot as Hnone. split.
    + rewrite Hmem. intros (v & _ & Hv & _). congruence.
    + run. now rewrite Hnone.
Qed.

Lemma check_low_items_agrees_with_get_qty_witness :
  exists names,
    check_low_items 5 (start stock) = (Ok names, start stock) /\
    (forall item,
       (item ∈ names) <->
       (item ∈ dict_keys (inventory (start stock))) /\
       exists v q, get_qty item (start stock) = (Ok v, start stock) /\
                   as_int v = Some q /\ q < 5) /\
    (forall item,
       item ∉ dict_keys (inventory (start stock)) ->
       (item ∉ names) /\ get_qty item (start stock) = (Ok (PyInt 0), start stock)).
Proof.
  apply (check_low_items_agrees_with_get_qty (start stock) 5).
  - exact stock_wf.
  - exact stock_int_valued.
Defined.

(** ** [print_data] *)

Lemma for_each_report (d : dict) (s : state) :
  for_each (fun '(item, qty) => print (Msg_report_line item qty)) d s =
    (Ok tt,
     mkState (inventory s)
             (stdout s ++ map (fun '(item, qty) => Msg_report_line item qty) d)
             (disk s) (denied s) (clock s) (ticks s)).
Proof.
  revert s. induction d as [|[k v] r IH]; intros s; cbn [for_each map].
  - unfold ret. rewrite app_nil_r. now destruct s.
  - rewrite bind_run. unfold print at 1. rewrite IH.
    cbn [inventory stdout disk denied clock ticks].
    now rewrite <- app_assoc.
Qed.

Lemma print_data_run (s : state) :
  print_data s =
    (Ok tt,
     mkState (inventory s)
             (stdout s ++ [Msg_report_header] ++ report_lines (inventory s)
                ++ [Msg_report_footer])
             (disk s) (denied s) (clock s) (ticks s)).
Proof.
  unfold print_data. rewrite bind_run. unfold print at 1.
  rewrite bind_run. unfold get_inventory at 1. cbn [inventory].
  rewrite bind_run. unfold report_lines.
  destruct (inventory s) as [|kv r] eqn:Hd.
  - unfold print. cbn [inventory stdout disk denied clock ticks].
    now rewrite <- !app_assoc.
  - rewrite for_each_report. unfold print.
    cbn [inventory stdout disk denied clock ticks].
    now rewrite <- !app_assoc.
Qed.


(** ** More on [save_data] and [load_data] *)

Lemma save_data_cases (J : Json) (s : state) (filename : string) :
  save_data filename s =
    if bool_decide (filename ∈ denied s)
    then print (Msg_save_error filename PermissionError) s
    else (Ok tt,
          mkState (inventory s) (stdout s ++ [Msg_saved filename])
                  (<[filename := json_dump (PyDict (inventory s)) 4]>
                     (<[filename := EmptyString]> (disk s)))
                  (denied s) (clock s) (ticks s)).
Proof.
  destruct (decide (filename ∈ denied s)) as [Hin|Hnot].
  - rewrite bool_decide_eq_true_2 by assumption. now apply save_data_denied.
  - rewrite bool_decide_eq_false_2 by assumption. now apply save_data_allowed.
Qed.



(** X14. When the file cannot be opened for writing, [save_data] catches
    the error, prints the error line and returns; nothing is written and
    the state is otherwise as before. *)
Theorem save_data_reports_failure (J : Json) (s : state) (filename : string) :
  filename ∈ denied s ->
  save_data filename s =
    (Ok tt,
     mkState (inventory s)
             (stdout s ++ [Msg_save_error filename PermissionError])
             (disk s) (denied s) (clock s) (ticks s)).
Proof.
  intros Hdenied. rewrite save_data_cases.
  now rewrite bool_decide_eq_true_2 by assumption.
Qed.

Lemma save_data_reports_failure_witness :
  save_data "inventory.json" (with_denied "inventory.json" (start stock)) =
    (Ok tt,
     mkState (inventory (with_denied "inventory.json" (start stock)))
             (stdout (with_denied "inventory.json" (start stock)) ++
                [Msg_save_error "inventory.json" PermissionError])
             (disk (with_denied "inventory.json" (start stock)))
             (denied (with_denied "inventory.json" (start stock)))
             (clock (with_denied "inventory.json" (start stock)))
             (ticks (with_denied "inventory.json" (start stock)))).
Proof.
  apply (save_data_reports_failure py_json
           (with_denied "inventory.json" (start stock)) "inventory.json").
  apply elem_of_union_l. now apply elem_of_singleton.
Defined.



Lemma load_data_denied (J : Json) (s : state) (filename : string) :
  filename ∈ denied s ->
  load_data filename s = (Raise PermissionError, s).
Proof.
  intros Hdenied. unfold load_data, try_except. rewrite bind_run.
  unfold open_read. now rewrite bool_decide_eq_true_2 by assumption.
Qed.

(** X16. [load_data] catches [FileNotFoundError] and [JSONDecodeError]
    only.  When the file exists but may not be opened, the
    [PermissionError] of [open] leaves the function; the state is as
    before. *)
Theorem load_data_permission_error (J : Json) (s : state) (filename : string) :
  filename ∈ denied s ->
  load_data filename s = (Raise PermissionError, s).
Proof.
  intros Hdenied. unfold load_data, try_except. rewrite bind_run.
  unfold open_read. rewrite bool_decide_eq_true_2 by assumption.
  reflexivity.
Qed.

Lemma load_data_permission_error_witness :
  load_data "inventory.json" (with_denied "inventory.json" (start stock)) =
  (Raise PermissionError, with_denied "inventory.json" (start stock)).
Proof.
  apply (load_data_permission_error py_json
           (with_denied "inventory.json" (start stock)) "inventory.json").
  apply elem_of_union_l. now apply elem_of_singleton.
Defined.

Lemma load_data_frame (J : Json) (s : state) (filename : string) :
  inventory (load_data filename s).2 = inventory s /\
  disk (load_data filename s).2 = disk s /\
  denied (load_data filename s).2 = denied s /\
  ticks (load_data filename s).2 = ticks s /\
  (stdout (load_data filename s).2 = stdout s \/
   exists m, stdout (load_data filename s).2 = stdout s ++ [m]).
Proof.
  destruct (decide (filename ∈ denied s)) as [Hin|Hnot].
  - rewrite load_data_denied by assumption. repeat split. now left.
  - rewrite load_data_run by assumption.
    destruct (disk s !! filename) as [content|].
    + destruct (json_load content) as [[]|[]]; cbn [snd print];
        repeat split; (now left) || (right; eexists; reflexivity).
    + repeat split. right. eexists. reflexivity.
Qed.

(** X17. [load_data] only reads: whatever happens, the inventory object,
    the disk and the clock are as before, and at most one line is
    printed. *)
Theorem load_data_only_reads (J : Json) (s : state) (filename : string) :
  inventory (load_data filename s).2 = inventory s /\
  disk (load_data filename s).2 = disk s /\
  denied (load_data filename s).2 = denied s /\
  ticks (load_data filename s).2 = ticks s /\
  (stdout (load_data filename s).2 = stdout s \/
   exists m, stdout (load_data filename s).2 = stdout s ++ [m]).
Proof.
  destruct (decide (filename ∈ denied s)) as [Hin|Hnot].
  - rewrite load_data_denied by assumption. repeat split. now left.
  - rewrite load_data_run by assumption.
    destruct (disk s !! filename) as [content|].
    + destruct (json_load content) as [[]|[]]; cbn [snd print];
        repeat split; (now left) || (right; eexists; reflexivity).
    + repeat split. right. eexists. reflexivity.
Qed.

(** ** [main] *)

Lemma stored_or_zero_held (d : dict) (item : string) :
  int_only d ->
  as_int (stored_or_zero d item) =
    Some (match held d item with Some b => b | None => 0 end).
Proof.
  intros Hint. unfold stored_or_zero. rewrite (held_lookup d item Hint).
  now destruct (held d item).
Qed.

Lemma remove_entry_int_only (d : dict) (item : string) (z : Z) :
  int_only d -> int_only (remove_entry d item (PyInt z)).
Proof.
  intros Hint. unfold remove_entry.
  destruct (dict_lookup d item) as [v|]; [|assumption].
  destruct (as_int v); [|assumption]. unfold as_int.
  destruct (_ <=? 0); auto using int_only_del, int_only_set.
Qed.

Lemma apply_op_keeps (d : dict) (o : op) :
  dict_wf d -> int_only d ->
  dict_wf (apply_op d o) /\ int_only (apply_op d o).
Proof.
  intros Hwf Hint. destruct o as [i q|i q]; cbn [apply_op].
  - split; [now apply dict_wf_set | now apply int_only_set].
  - split; [now apply remove_entry_wf | now apply remove_entry_int_only].
Qed.

(** One operation moves the dictionary and nothing else but the console
    and the clock. *)
Lemma run_op_apply (o : op) (s : state) :
  int_only (inventory s) ->
  exists s',
    run_op o s = (Ok tt, s') /\
    inventory s' = apply_op (inventory s) o /\
    disk s' = disk s /\ denied s' = denied s.
Proof.
  intros Hint. destruct o as [i q|i q]; cbn [run_op apply_op].
  - rewrite (add_item_int s i (PyInt q) _ q eq_refl (stored_or_zero_held _ i Hint)).
    eexists. split; [reflexivity|]. repeat split.
  - rewrite remove_item_state. eexists. split; [reflexivity|]. repeat split.
Qed.

Lemma run_ops_apply (ops : list op) (s : state) :
  dict_wf (inventory s) -> int_only (inventory s) ->
  exists s',
    run_ops ops s = (Ok tt, s') /\
    inventory s' = fold_left apply_op ops (inventory s) /\
    disk s' = disk s /\ denied s' = denied s.
Proof.
  revert s. induction ops as [|o ops IH]; intros s Hwf Hint.
  - exists s. repeat split.
  - rewrite run_ops_cons.
    destruct (run_op_apply o s Hint) as (s1 & -> & I1 & D1 & N1).
    destruct (apply_op_keeps _ o Hwf Hint) as [Hwf' Hint'].
    rewrite <- I1 in Hwf', Hint'.
    destruct (IH s1 Hwf' Hint') as (s2 & -> & I2 & D2 & N2).
    exists s2. split; [reflexivity|]. cbn [fold_left].
    rewrite I2, I1, D2, D1, N2, N1. repeat split.
Qed.

Lemma fold_apply_op_keeps (ops : list op) (d : dict) :
  dict_wf d -> int_only d ->
  dict_wf (fold_left apply_op ops d) /\ int_only (fold_left apply_op ops d).
Proof.
  revert d. induction ops as [|o ops IH]; intros d Hwf Hint; [now split|].
  cbn [fold_left]. destruct (apply_op_keeps d o Hwf Hint). now apply IH.
Qed.

Lemma check_low_items_int (s : state) (threshold : Z) :
  int_valued (inventory s) ->
  exists names, check_low_items threshold s = (Ok names, s).
Proof.
  intros Hint. rewrite check_low_items_unfold, (low_comprehension_int _ _ s Hint).
  eauto.
Qed.

Lemma bind_ok {A B} (m : M A) (k : A -> M B) (s s' : state) (a : A) :
  m s = (Ok a, s') -> bind m k s = k a s'.
Proof. intros H. now rewrite bind_run, H. Qed.

Ltac step E := rewrite (bind_ok _ _ _ _ _ E); cbv beta.

(** [main] behind [load_data]. *)
Lemma main_from (d : dict) (s1 : state) :
  dict_wf d -> int_only d ->
  "inventory.json" ∉ denied s1 ->
  exists s',
    (put_inventory d ;;;
     add_item (PyStr "apple") (PyInt 10) ;;;
     add_item (PyStr "banana") (PyInt 2) ;;;
     add_item (PyInt 123) (PyStr "ten") ;;;
     remove_item "apple" (PyInt 3) ;;;
     remove_item "orange" (PyInt 1) ;;;
     apple <- get_qty "apple" ;;
     print (Msg_apple_stock apple) ;;;
     low_items <- check_low_items 5 ;;
     print (Msg_low_items low_items) ;;;
     print_data ;;;
     save_data "inventory.json" ;;;
     print Msg_finished) s1 = (Ok tt, s') /\
    inventory s' = fold_left apply_op main_ops d /\
    disk s' =
      <["inventory.json" := json.dumps (PyDict (fold_left apply_op main_ops d)) 4]>
        (disk s1) /\
    denied s' = denied s1.
Proof.
  intros Hwf Hint Hallowed.
  pose (s2 := mkState d (stdout s1) (disk s1) (denied s1) (clock s1) (ticks s1)).
  assert (E0 : put_inventory d s1 = (Ok tt, s2)) by reflexivity.
  step E0.
  destruct (run_op_apply (Add "apple" 10) s2 Hint) as (s3 & E3 & I3 & D3 & N3).
  cbn [run_op] in E3. step E3.
  destruct (apply_op_keeps _ (Add "apple" 10) Hwf Hint) as [W3 H3].
  change d with (inventory s2) in W3, H3. rewrite <- I3 in W3, H3.
  destruct (run_op_apply (Add "banana" 2) s3 H3) as (s4 & E4 & I4 & D4 & N4).
  cbn [run_op] in E4. step E4.
  destruct (apply_op_keeps _ (Add "banana" 2) W3 H3) as [W4 H4].
  rewrite <- I4 in W4, H4.
  pose (s5 := (print (Msg_invalid_types int_t str_t) s4).2).
  assert (E5 : add_item (PyInt 123) (PyStr "ten") s4 = (Ok tt, s5)) by reflexivity.
  step E5.
  assert (H5 : int_only (inventory s5)) by exact H4.
  assert (W5 : dict_wf (inventory s5)) by exact W4.
  destruct (run_op_apply (Remove "apple" 3) s5 H5) as (s6 & E6 & I6 & D6 & N6).
  cbn [run_op] in E6. step E6.
  destruct (apply_op_keeps _ (Remove "apple" 3) W5 H5) as [W6 H6].
  rewrite <- I6 in W6, H6.
  destruct (run_op_apply (Remove "orange" 1) s6 H6) as (s7 & E7 & I7 & D7 & N7).
  cbn [run_op] in E7. step E7.
  destruct (apply_op_keeps _ (Remove "orange" 1) W6 H6) as [W7 H7].
  rewrite <- I7 in W7, H7.
  assert (E8 : get_qty "apple" s7 = (Ok (stored_or_zero (inventory s7) "apple"), s7))
    by reflexivity.
  step E8.
  pose (s9 := (print (Msg_apple_stock (stored_or_zero (inventory s7) "apple")) s7).2).
  assert (E9 : print (Msg_apple_stock (stored_or_zero (inventory s7) "apple")) s7
               = (Ok tt, s9)) by reflexivity.
  step E9.
  assert (H9 : int_valued (inventory s9)) by (apply int_only_int_valued; exact H7).
  destruct (check_low_items_int s9 5 H9) as [names E10]. step E10.
  pose (s11 := (print (Msg_low_items names) s9).2).
  assert (E11 : print (Msg_low_items names) s9 = (Ok tt, s11)) by reflexivity.
  step E11.
  pose proof (print_data_run s11) as E12. step E12.
  match type of E12 with _ = (_, ?s) => set (s12 := s) in * end.
  assert (A12 : "inventory.json" ∉ denied s12).
  { cbn. rewrite N7, N6. cbn. rewrite N4, N3. exact Hallowed. }
  pose proof (save_data_allowed py_json s12 "inventory.json" A12) as E13. step E13.
  eexists. split; [reflexivity|]. cbn [print snd inventory disk denied s12 s11 s9].
  assert (Ed : inventory s7 = fold_left apply_op main_ops d).
  { rewrite I7, I6. cbn [s5 print snd inventory]. rewrite I4, I3. reflexivity. }
  rewrite Ed. split; [reflexivity|]. split.
  - rewrite insert_insert_eq. cbn [json_dump py_json].
    rewrite D7, D6. cbn [s5 print snd disk]. rewrite D4, D3. reflexivity.
  - rewrite N7, N6. cbn [s5 print snd denied]. rewrite N4, N3. reflexivity.
Qed.



(** X19. [main] has no handler of its own: when the file exists but may
    not be opened, the [PermissionError] of [load_data] ends the run
    before anything is printed or changed. *)
Theorem main_permission_error (s : state) :
  "inventory.json" ∈ denied s ->
  main s = (Raise PermissionError, s).
Proof.
  intros Hdenied. unfold main. rewrite bind_run.
  now rewrite load_data_denied by assumption.
Qed.

Lemma main_permission_error_witness :
  main (with_denied "inventory.json" (start [])) =
  (Raise PermissionError, with_denied "inventory.json" (start [])).
Proof.
  apply (main_permission_error (with_denied "inventory.json" (start []))).
  apply elem_of_union_l. now apply elem_of_singleton.
Defined.

(** X20. [load_data] does not look at the quantities it loads.  When the
    file gives the apple entry something that is no number, the first
    [add_item] of [main] raises [TypeError] and the run ends there: the file
    is not written again. *)
Theorem main_type_error (s : state) (d : dict) (v : pyval) :
  (load_data "inventory.json" s).1 = Ok d ->
  dict_lookup d "apple" = Some v ->
  as_int v = None ->
  (main s).1 = Raise TypeError /\
  inventory (main s).2 = d /\
  disk (main s).2 = disk s.
Proof.
  intros Hload Hv Hnone.
  destruct (load_data_frame py_json s "inventory.json") as (_ & Hdisk & _).
  destruct (load_data "inventory.json" s) as [r s1] eqn:E1.
  cbn [fst snd] in *. subst r.
  unfold main. step E1.
  assert (E2 : put_inventory d s1 =
               (Ok tt, mkState d (stdout s1) (disk s1) (denied s1) (clock s1) (ticks s1)))
    by reflexivity.
  step E2. rewrite bind_run.
  erewrite add_item_type_error_run; [ | reflexivity | exact Hv | exact Hnone ].
  cbn [fst snd inventory disk]. repeat split. exact Hdisk.
Qed.

Lemma main_type_error_witness :
  (main (with_file "inventory.json"
           (json.dumps (PyDict [("apple", PyStr "seven")]) 4) (start []))).1
    = Raise TypeError /\
  inventory (main (with_file "inventory.json"
                     (json.dumps (PyDict [("apple", PyStr "seven")]) 4) (start []))).2
    = [("apple", PyStr "seven")] /\
  disk (main (with_file "inventory.json"
                (json.dumps (PyDict [("apple", PyStr "seven")]) 4) (start []))).2
    = disk (with_file "inventory.json"
              (json.dumps (PyDict [("apple", PyStr "seven")]) 4) (start [])).
Proof.
  apply (main_type_error
           (with_file "inventory.json"
              (json.dumps (PyDict [("apple", PyStr "seven")]) 4) (start []))
           [("apple", PyStr "seven")] (PyStr "seven")).
  - vm_compute. reflexivity.
  - reflexivity.
  - reflexivity.
Defined.

(** ** The round trip of [json] on every value *)

Section JsonValues.
Import json.

(** The first character of the text of a value is no white space and
    closes no list. *)
Lemma encode_head (indent level : nat) (v : pyval) :
  exists c r,
    encode indent level v = c :: r /\
    is_ws c = false /\ Ascii.eqb c "]"%char = false.
Proof.
  destruct v as [|[]|z|s|[|x l]|[|[k x] d]]; try (do 2 eexists; repeat split; fail).
  unfold encode, decimal. destruct z as [|p|p]; cbn [Z.to_int].
  - do 2 eexists. repeat split.
  - unfold NilZero.string_of_int, NilZero.string_of_uint.
    destruct (to_uint_head p) as (c & s & E & Hc & _).
    pose proof (DecimalPos.Unsigned.to_uint_nonnil p) as Hnn.
    replace (match Pos.to_uint p with
             | Decimal.Nil => "0"%string
             | _ => NilEmpty.string_of_uint (Pos.to_uint p)
             end) with (String c s)
      by (rewrite <- E; destruct (Pos.to_uint p); [congruence | reflexivity ..]).
    exists c, (chars s). split; [reflexivity|].
    destruct c as [[] [] [] [] [] [] [] []]; try discriminate; split; reflexivity.
  - do 2 eexists. repeat split.
Qed.

Lemma skip_ws_encode (indent level level' : nat) (v : pyval) (rest : list ascii) :
  skip_ws (newline_indent indent level' ++ encode indent level v ++ rest) =
  encode indent level v ++ rest.
Proof.
  destruct (encode_head indent level v) as (c & r & -> & Hws & _).
  cbn [app]. now apply skip_ws_indent.
Qed.

Lemma scan_once_list_step fuel rest0 c r :
  skip_ws rest0 = c :: r ->
  Ascii.eqb c "]"%char = false ->
  scan_once (S fuel) ("["%char :: rest0) = elements fuel (c :: r) [].
Proof.
  intros Hskip Hc. cbn [scan_once].
  change (Ascii.eqb "[" dquote) with false. change (Ascii.eqb "[" "{") with false.
  change (Ascii.eqb "[" "[") with true. cbv iota. now rewrite Hskip, Hc.
Qed.

Lemma scan_once_dict_step fuel rest0 r :
  skip_ws rest0 = dquote :: r ->
  scan_once (S fuel) ("{"%char :: rest0) = members fuel r [].
Proof.
  intros Hskip. cbn [scan_once].
  change (Ascii.eqb "{" dquote) with false. change (Ascii.eqb "{" "{") with true.
  cbv iota. rewrite Hskip.
  change (Ascii.eqb dquote "}") with false.
  change (Ascii.eqb dquote dquote) with true. reflexivity.
Qed.

Lemma elements_step fuel s items v r :
  scan_once fuel s = Parsed v r ->
  elements (S fuel) s items =
    match skip_ws r with
    | c :: r1 =>
      if Ascii.eqb c "]"%char then Parsed (PyList (items ++ [v])) r1
      else if Ascii.eqb c ","%char then elements fuel (skip_ws r1) (items ++ [v])
      else Malformed
    | [] => Malformed
    end.
Proof. intros H. cbn [elements]. now rewrite H. Qed.

Lemma join_elements_text indent level x xs rest :
  join (chars "," ++ newline_indent indent (S level))
       (map (encode indent (S level)) (x :: xs))
    ++ newline_indent indent level ++ chars "]" ++ rest =
  elements_text indent level x xs rest.
Proof.
  revert x. induction xs as [|x' xs IH]; intros x.
  - cbn [map join elements_text]. unfold chars. cbn [list_ascii_of_string app].
    reflexivity.
  - cbn [map] in *. rewrite join_cons_cons. cbn [elements_text].
    rewrite <- !app_assoc. rewrite IH. unfold chars.
    cbn [list_ascii_of_string app]. reflexivity.
Qed.

Lemma join_members_text_at indent level k x kvs rest :
  join (chars "," ++ newline_indent indent (S level))
       (map (fun '(k, x) => encode_string k ++ chars ": " ++ encode indent (S level) x)
            ((k, x) :: kvs))
    ++ newline_indent indent level ++ chars "}" ++ rest =
  dquote :: members_text_at indent level k x kvs rest.
Proof.
  revert k x. induction kvs as [|[k' x'] kvs IH]; intros k x.
  - cbn [map join members_text_at]. unfold encode_string, chars.
    cbn [list_ascii_of_string]. rewrite <- !app_assoc. cbn [app].
    rewrite <- !app_assoc. reflexivity.
  - cbn [map] in *. rewrite join_cons_cons. cbn [members_text_at].
    rewrite <- !app_assoc.
    rewrite IH. unfold encode_string, chars.
    cbn [list_ascii_of_string]. rewrite <- ?app_assoc. cbn [app].
    rewrite <- ?app_assoc. reflexivity.
Qed.

Lemma encode_list_text indent level x xs rest :
  encode indent level (PyList (x :: xs)) ++ rest =
  "["%char :: newline_indent indent (S level) ++ elements_text indent level x xs rest.
Proof.
  cbn [encode]. rewrite <- !app_assoc.
  rewrite (join_elements_text indent level x xs rest). reflexivity.
Qed.

Lemma encode_dict_text_at indent level k x kvs rest :
  encode indent level (PyDict ((k, x) :: kvs)) ++ rest =
  "{"%char :: newline_indent indent (S level) ++
  dquote :: members_text_at indent level k x kvs rest.
Proof.
  cbn [encode]. rewrite <- !app_assoc.
  rewrite (join_members_text_at indent level k x kvs rest). reflexivity.
Qed.


(** The text of a value, read with enough fuel, gives the value back; and
    the text is at least as long as the value is big. *)
Definition reads_back (v : pyval) : Prop :=
  (forall indent level fuel rest,
     (value_size v < fuel)%nat ->
     number_end rest ->
     scan_once fuel (encode indent level v ++ rest) = Parsed v rest) /\
  (forall indent level, (value_size v <= length (encode indent level v))%nat).

Lemma elements_text_unfold indent level x xs rest :
  exists tail,
    elements_text indent level x xs rest = encode indent (S level) x ++ tail /\
    number_end tail.
Proof.
  destruct xs as [|x' xs]; cbn [elements_text]; eexists; split;
    try reflexivity; split; reflexivity.
Qed.

Lemma items_size_cons x xs :
  items_size (x :: xs) = S (value_size x + items_size xs).
Proof. reflexivity. Qed.

Lemma pairs_size_cons k x kvs :
  pairs_size ((k, x) :: kvs) = S (value_size x + pairs_size kvs).
Proof. reflexivity. Qed.

Lemma elements_items indent level xs x items fuel rest :
  Forall reads_back (x :: xs) ->
  (items_size (x :: xs) < fuel)%nat ->
  elements fuel (elements_text indent level x xs rest) items =
    Parsed (PyList (items ++ x :: xs)) rest.
Proof.
  revert x items fuel.
  induction xs as [|x' xs IH]; intros x items fuel Hall Hfuel;
    apply Forall_cons_1 in Hall as [[Hx _] Hrest];
    (destruct fuel as [|fuel]; [lia|]);
    rewrite items_size_cons in Hfuel; cbn [elements_text].
  - erewrite elements_step;
      [ | apply Hx; [lia | split; reflexivity] ].
    rewrite skip_ws_indent by reflexivity.
    change (Ascii.eqb "]" "]") with true. reflexivity.
  - erewrite elements_step;
      [ | apply Hx; [lia | split; reflexivity] ].
    cbn [skip_ws]. change (is_ws ",") with false. cbv iota.
    change (Ascii.eqb "," "]") with false. change (Ascii.eqb "," ",") with true.
    cbv iota.
    destruct (elements_text_unfold indent level x' xs rest) as (tail & Et & _).
    rewrite Et, skip_ws_encode, <- Et.
    rewrite IH; [ | assumption | lia ].
    now rewrite <- app_assoc.
Qed.

Lemma members_items indent level kvs k x pairs fuel rest :
  Forall (fun kv : string * pyval => reads_back kv.2) ((k, x) :: kvs) ->
  (pairs_size ((k, x) :: kvs) < fuel)%nat ->
  members fuel (members_text_at indent level k x kvs rest) pairs =
    Parsed (PyDict (dict_of_pairs (dict_set pairs k x) kvs)) rest.
Proof.
  revert k x pairs fuel.
  induction kvs as [|[k' x'] kvs IH]; intros k x pairs fuel Hall Hfuel;
    apply Forall_cons_1 in Hall as [[Hx _] Hrest]; cbn [snd] in Hx;
    (destruct fuel as [|fuel]; [lia|]);
    rewrite pairs_size_cons in Hfuel; cbn [members_text_at].
  - erewrite members_step;
      [ | apply scanstring_escape | reflexivity
        | cbn [skip_ws]; change (is_ws space) with true; cbv iota;
          destruct (encode_head indent (S level) x) as (c & r & Ec & Hws & _);
          rewrite Ec; cbn [app skip_ws]; rewrite Hws; rewrite app_comm_cons, <- Ec;
          apply Hx; [lia | split; reflexivity] ].
    now rewrite skip_ws_indent.
  - erewrite members_step;
      [ | apply scanstring_escape | reflexivity
        | cbn [skip_ws]; change (is_ws space) with true; cbv iota;
          destruct (encode_head indent (S level) x) as (c & r & Ec & Hws & _);
          rewrite Ec; cbn [app skip_ws]; rewrite Hws; rewrite app_comm_cons, <- Ec;
          apply Hx; [lia | split; reflexivity] ].
    cbn [skip_ws]. change (is_ws ",") with false. cbv iota.
    change (Ascii.eqb "," "}") with false. change (Ascii.eqb "," ",") with true.
    cbv iota. rewrite skip_ws_indent by reflexivity.
    change (Ascii.eqb dquote dquote) with true. cbv iota.
    rewrite IH; [reflexivity | assumption | lia].
Qed.

Lemma newline_indent_length indent level :
  (1 <= length (newline_indent indent level))%nat.
Proof. unfold newline_indent. cbn [length]. lia. Qed.

Lemma elements_text_length indent level xs x rest :
  Forall reads_back (x :: xs) ->
  (items_size (x :: xs) + 1 <= length (elements_text indent level x xs rest))%nat.
Proof.
  revert x. induction xs as [|x' xs IH]; intros x Hall;
    apply Forall_cons_1 in Hall as [[_ Hx] Hrest];
    specialize (Hx indent (S level));
    rewrite items_size_cons; cbn [elements_text]; rewrite length_app;
    cbn [length].
  - rewrite length_app. cbn [length items_size fold_right].
    pose proof (newline_indent_length indent level). lia.
  - rewrite length_app. specialize (IH x' Hrest). lia.
Qed.

Lemma members_text_at_length indent level kvs k x rest :
  Forall (fun kv : string * pyval => reads_back kv.2) ((k, x) :: kvs) ->
  (pairs_size ((k, x) :: kvs) + 1 <=
   length (members_text_at indent level k x kvs rest))%nat.
Proof.
  revert k x. induction kvs as [|[k' x'] kvs IH]; intros k x Hall;
    apply Forall_cons_1 in Hall as [[_ Hx] Hrest]; cbn [snd] in Hx;
    specialize (Hx indent (S level));
    rewrite pairs_size_cons; cbn [members_text_at]; rewrite length_app;
    cbn [length]; rewrite length_app; cbn [length].
  - rewrite length_app. cbn [length pairs_size fold_right].
    pose proof (newline_indent_length indent level). lia.
  - rewrite length_app. cbn [length]. specialize (IH k' x' Hrest). lia.
Qed.

Lemma value_size_pos (v : pyval) : (1 <= value_size v)%nat.
Proof. destruct v; cbn [value_size]; lia. Qed.

Lemma reads_back_items (n : nat) (l : list pyval) :
  (forall v, (value_size v <= n)%nat -> wf_value v -> reads_back v) ->
  (items_size l <= n)%nat ->
  fold_right (fun x acc => wf_value x /\ acc) True l ->
  Forall reads_back l.
Proof.
  intros IH. induction l as [|x xs IHl]; intros Hsize Hwf; [constructor|].
  rewrite items_size_cons in Hsize. cbn [fold_right] in Hwf. destruct Hwf as [Hx Hxs].
  constructor.
  - apply IH; [lia | assumption].
  - apply IHl; [lia | assumption].
Qed.

Lemma reads_back_pairs (n : nat) (d : dict) :
  (forall v, (value_size v <= n)%nat -> wf_value v -> reads_back v) ->
  (pairs_size d <= n)%nat ->
  fold_right (fun '(_, x) acc => wf_value x /\ acc) True d ->
  Forall (fun kv : string * pyval => reads_back kv.2) d.
Proof.
  intros IH. induction d as [|[k x] kvs IHd]; intros Hsize Hwf; [constructor|].
  rewrite pairs_size_cons in Hsize. cbn [fold_right] in Hwf. destruct Hwf as [Hx Hxs].
  constructor.
  - cbn [snd]. apply IH; [lia | assumption].
  - apply IHd; [lia | assumption].
Qed.

Lemma reads_back_scalar (v : pyval) :
  match v with PyList _ | PyDict _ => False | _ => True end ->
  reads_back v.
Proof.
  intros Hscalar. split.
  - intros indent level fuel rest Hfuel Hend.
    destruct fuel as [|fuel]; [lia|].
    destruct v as [|[]|z|s| |]; try contradiction; try reflexivity.
    + now apply scan_once_decimal.
    + cbn [encode]. unfold encode_string. cbn [app]. rewrite <- app_assoc.
      cbn [app scan_once].
      change (Ascii.eqb dquote dquote) with true. cbv iota.
      now rewrite scanstring_escape.
  - intros indent level.
    destruct (encode_head indent level v) as (c & r & -> & _).
    destruct v; try contradiction; cbn [value_size length]; lia.
Qed.

Lemma reads_back_bounded (n : nat) (v : pyval) :
  (value_size v <= n)%nat -> wf_value v -> reads_back v.
Proof.
  revert v. induction n as [|n IH]; intros v Hsize Hwf.
  - pose proof (value_size_pos v). lia.
  - destruct v as [| | | |l|d]; try (now apply reads_back_scalar).
    + (* a list *)
      cbn [value_size] in Hsize. fold (items_size l) in Hsize.
      cbn [wf_value] in Hwf.
      assert (Hall : Forall reads_back l)
        by (apply (reads_back_items n); [exact IH | lia | exact Hwf]).
      destruct l as [|x xs].
      { split.
        - intros indent level [|fuel] rest Hfuel _; [cbn in Hfuel; lia | reflexivity].
        - intros indent level. cbn. lia. }
      split.
      * intros indent level fuel rest Hfuel _.
        cbn [value_size] in Hfuel. fold (items_size (x :: xs)) in Hfuel.
        destruct fuel as [|fuel]; [lia|].
        rewrite encode_list_text.
        destruct (elements_text_unfold indent level x xs rest) as (tail & Et & _).
        destruct (encode_head indent (S level) x) as (c & r & Ec & Hws & Hc).
        assert (Hskip : skip_ws (newline_indent indent (S level) ++
                                 elements_text indent level x xs rest)
                        = c :: (r ++ tail))
          by (rewrite Et, skip_ws_encode, Ec; reflexivity).
        rewrite (scan_once_list_step fuel _ c (r ++ tail) Hskip Hc).
        replace (c :: r ++ tail) with (elements_text indent level x xs rest)
          by (rewrite Et, Ec; reflexivity).
        rewrite elements_items; [reflexivity | exact Hall | lia].
      * intros indent level.
        rewrite <- (app_nil_r (encode indent level _)), encode_list_text.
        cbn [value_size length]. fold (items_size (x :: xs)).
        rewrite length_app.
        pose proof (elements_text_length indent level xs x [] Hall). lia.
    + (* a dictionary *)
      cbn [value_size] in Hsize. fold (pairs_size d) in Hsize.
      cbn [wf_value] in Hwf. destruct Hwf as [Hkeys Hwf].
      assert (Hall : Forall (fun kv : string * pyval => reads_back kv.2) d)
        by (apply (reads_back_pairs n); [exact IH | lia | exact Hwf]).
      destruct d as [|[k x] kvs].
      { split.
        - intros indent level [|fuel] rest Hfuel _; [cbn in Hfuel; lia | reflexivity].
        - intros indent level. cbn. lia. }
      split.
      * intros indent level fuel rest Hfuel _.
        cbn [value_size] in Hfuel. fold (pairs_size ((k, x) :: kvs)) in Hfuel.
        destruct fuel as [|fuel]; [lia|].
        rewrite encode_dict_text_at.
        erewrite scan_once_dict_step by (apply skip_ws_indent; reflexivity).
        rewrite members_items; [ | exact Hall | lia].
        change (dict_set [] k x) with [(k, x)].
        now rewrite dict_of_pairs_fresh.
      * intros indent level.
        rewrite <- (app_nil_r (encode indent level _)), encode_dict_text_at.
        cbn [value_size length]. fold (pairs_size ((k, x) :: kvs)).
        rewrite length_app. cbn [length].
        pose proof (members_text_at_length indent level kvs k x [] Hall). lia.
Qed.

(** Every value made of [None], booleans, integers, strings, lists and
    dictionaries with distinct keys reads back. *)
Lemma loads_dumps_value (v : pyval) (indent : nat) :
  wf_value v -> loads (dumps v indent) = Ok v.
Proof.
  intros Hwf.
  destruct (reads_back_bounded (value_size v) v (le_n _) Hwf) as [Hread Hlen].
  unfold loads, dumps, chars. rewrite list_ascii_of_string_of_list_ascii.
  destruct (encode_head indent 0 v) as (c & r & Ec & Hws & _).
  assert (Hskip : skip_ws (encode indent 0 v) = encode indent 0 v)
    by (rewrite Ec; cbn [skip_ws]; now rewrite Hws).
  rewrite Hskip.
  rewrite <- (app_nil_r (encode indent 0 v)) at 2.
  rewrite Hread; [reflexivity | | split; reflexivity].
  specialize (Hlen indent 0%nat). lia.
Qed.

End JsonValues.



(** ** More on sequences of operations *)



Lemma ledger_step_commute (k : string) (b : option Z) (o1 o2 : op) :
  op_item o1 <> op_item o2 ->
  ledger_step k (ledger_step k b o1) o2 = ledger_step k (ledger_step k b o2) o1.
Proof.
  intros Hne. destruct o1 as [i1 q1|i1 q1], o2 as [i2 q2|i2 q2];
    cbn [op_item ledger_step] in *;
    destruct (String.eqb_spec i1 k) as [->|H1];
    destruct (String.eqb_spec i2 k) as [->|H2];
    try congruence; try reflexivity.
Qed.

(** X23. Operations on different items do not interfere: applied in
    either order to an inventory with distinct keys and [int] quantities
    they leave every item with the same quantity.  (Only the order of the
    keys can differ.) *)
Theorem operations_on_different_items_commute
    (s : state) (o1 o2 : op) (k : string) :
  dict_wf (inventory s) ->
  int_only (inventory s) ->
  op_item o1 <> op_item o2 ->
  dict_lookup (inventory (run_ops [o1; o2] s).2) k =
  dict_lookup (inventory (run_ops [o2; o1] s).2) k.
Proof.
  intros Hwf Hint Hne.
  destruct (run_ops_ledger [o1; o2] s Hwf Hint) as (_ & _ & Hint12 & H12).
  destruct (run_ops_ledger [o2; o1] s Hwf Hint) as (_ & _ & Hint21 & H21).
  rewrite (held_lookup _ k Hint12), (held_lookup _ k Hint21), H12, H21.
  cbn [fold_left]. now rewrite ledger_step_commute.
Qed.

Lemma operations_on_different_items_commute_witness :
  dict_lookup (inventory (run_ops [Add "pear" 4; Remove "apple" 7] (start stock)).2) "pear" =
  dict_lookup (inventory (run_ops [Remove "apple" 7; Add "pear" 4] (start stock)).2) "pear".
Proof.
  apply (operations_on_different_items_commute
           (start stock) (Add "pear" 4) (Remove "apple" 7) "pear").
  - exact stock_wf.
  - repeat constructor; simpl; eauto.
  - discriminate.
Defined.
